(** * UniversalCompiler: the dispatch, command-construction and
      persistence layer of [UniversalCompiler.py], embedded in Rocq.

    The Python functions are translated one by one.  Code that talks to
    the operating system runs in a small exception/state monad over a
    model of the host: the set of existing paths, the trace of process
    spawn attempts and the trace of removal attempts.  What the host
    answers (which programs are on PATH, what a spawned process returns,
    which file operations fail) is an oracle record, so every theorem
    quantifies over all hosts. *)

From Stdlib Require Import ZArith Lia List Bool Ascii String DecimalString.
From Stdlib Require Import SpecFloat.
From stdpp Require Import gmap strings list fin_maps infinite.

Local Open Scope Z_scope.

(** ** Characters Python writes with escapes *)

Definition dquote : string := String "034"%char EmptyString.
Definition newline : string := String "010"%char EmptyString.
Definition backslash : string := String "092"%char EmptyString.

(** ** Python exceptions and the effect monad *)

Module Py.

(** An instance of [Exception]: its class name and [str(e)]. *)
Record exc := Exc { exc_class : string; exc_str : string }.

Inductive outcome (A : Type) : Type :=
| Return (a : A)
| Raise (e : exc).
Arguments Return {A} a.
Arguments Raise {A} e.

(** The part of the host a call can change. *)
Record host := Host {
  fs : gset string;                           (* paths that exist *)
  spawned : list (list string * option string); (* subprocess.run attempts, oldest first *)
  written : list (string * string);           (* text files written, oldest first *)
  rmtrees : list string                       (* shutil.rmtree calls, oldest first *)
}.

Definition M (A : Type) : Type := host -> outcome A * host.

Definition ret {A} (a : A) : M A := fun h => (Return a, h).
Definition bind {A B} (m : M A) (k : A -> M B) : M B :=
  fun h => match m h with
           | (Return a, h') => k a h'
           | (Raise e, h') => (Raise e, h')
           end.

(** [try: body  except Exception as e: handler(e)] *)
Definition try_except {A} (body : M A) (handler : exc -> M A) : M A :=
  fun h => match body h with
           | (Return a, h') => (Return a, h')
           | (Raise e, h') => handler e h'
           end.

(** [try: body  finally: cleanup]: the cleanup runs on both exits; the
    body's result or exception continues unless the cleanup raises. *)
Definition try_finally {A} (body : M A) (cleanup : M unit) : M A :=
  fun h => match body h with
           | (r, h') =>
               match cleanup h' with
               | (Return _, h'') => (r, h'')
               | (Raise e, h'') => (Raise e, h'')
               end
           end.

(** Truthiness of an [Optional[str]]: not [None] and not empty. *)
Definition truthy (s : option string) : bool :=
  match s with
  | Some EmptyString => false
  | Some _ => true
  | None => false
  end.

End Py.

Import Py.

Notation "x <- m ;; k" := (bind m (fun x => k))
  (at level 100, m at next level, right associativity).
Notation "m ;;; k" := (bind m (fun _ => k))
  (at level 100, right associativity).

(** ** The host's answers *)

(** What [subprocess.run(cmd, capture_output=True, text=True, cwd=cwd)]
    does: the process runs to completion, or the call raises. *)
Record completed := Completed {
  returncode : Z;
  stdout : string;
  stderr : string
}.

Inductive run_result :=
| Ran (p : completed)
| SpawnError (e : exc).

Record oracle := Oracle {
  (* shutil.which *)
  os_which : string -> option string;
  (* os.environ.get(name) *)
  os_environ : string -> option string;
  (* os.path.getsize of an existing file: a non-negative off_t *)
  os_getsize : string -> Z;
  (* os.path functions of the platform *)
  os_dirname : string -> string;
  os_basename : string -> string;
  os_splitext_root : string -> string;          (* os.path.splitext(p)[0] *)
  os_join : string -> string -> string;
  (* str(Path(a) / b) *)
  os_pathdiv : string -> string -> string;
  (* subprocess.run *)
  os_run : list string -> option string -> run_result;
  (* faults of the file operations of compile_batch; None = success *)
  os_mkdtemp_fault : option exc;
  os_copy_fault : string -> string -> option exc;
  os_write_fault : string -> option exc;
  (* whether the operating system lets the tree at a path be removed *)
  os_rmtree_ok : string -> bool
}.

(** The host after one more spawn attempt. *)
Definition after_spawn (h : host) (cmd : list string) (cwd : option string) : host :=
  Host (fs h) (spawned h ++ [(cmd, cwd)]) (written h) (rmtrees h).

Section Primitives.
Variable o : oracle.

(** os.path.exists / Path.exists: the empty path never exists. *)
Definition exists_in (h : host) (p : string) : bool :=
  match p with
  | EmptyString => false
  | _ => bool_decide (p ∈ fs h)
  end.

Definition path_exists (p : string) : M bool :=
  fun h => (Return (exists_in h p), h).

Definition environ_get (name default : string) : string :=
  match os_environ o name with
  | Some v => v
  | None => default
  end.

(** os.path.join with three arguments *)
Definition join3 (a b c : string) : string := os_join o (os_join o a b) c.
Definition join5 (a b c d e : string) : string :=
  os_join o (os_join o (join3 a b c) d) e.

(** [subprocess.run]: every call is a spawn attempt, recorded before
    the host answers. *)
Definition subprocess_run (cmd : list string) (cwd : option string) : M completed :=
  fun h =>
    match os_run o cmd cwd with
    | Ran p => (Return p, after_spawn h cmd cwd)
    | SpawnError e => (Raise e, after_spawn h cmd cwd)
    end.

(** [tempfile.mkdtemp()]: a directory that did not exist is created
    and its path returned, or the call raises. *)
Definition mkdtemp : M string :=
  fun h =>
    match os_mkdtemp_fault o with
    | Some e => (Raise e, h)
    | None =>
        let d := fresh (fs h) in
        (Return d, Host ({[d]} ∪ fs h) (spawned h) (written h) (rmtrees h))
    end.

(** [shutil.copy(src, dst)] *)
Definition shutil_copy (src dst : string) : M unit :=
  fun h =>
    if exists_in h src then
      match os_copy_fault o src dst with
      | Some e => (Raise e, h)
      | None => (Return tt, Host ({[dst]} ∪ fs h) (spawned h) (written h) (rmtrees h))
      end
    else (Raise (Exc "FileNotFoundError"
                     ("[Errno 2] No such file or directory: '" +:+ src +:+ "'")), h).

(** [with open(path, "w") as f: f.write(text)] *)
Definition write_text (path text : string) : M unit :=
  fun h =>
    match os_write_fault o path with
    | Some e => (Raise e, h)
    | None =>
        (Return tt,
         Host ({[path]} ∪ fs h) (spawned h) (written h ++ [(path, text)]) (rmtrees h))
    end.

(** A path is inside the tree rooted at [d]: [d] itself or a path that
    continues [os.path.join(d, "")]. *)
Definition in_tree (d p : string) : Prop :=
  p = d \/ String.prefix (os_join o d "") p = true.

Global Instance in_tree_dec d p : Decision (in_tree d p).
Proof. unfold in_tree. apply _. Defined.

(** [shutil.rmtree(d, ignore_errors=True)]: never raises; when the
    operating system refuses the removal the tree stays. *)
Definition shutil_rmtree_ignore_errors (d : string) : M unit :=
  fun h =>
    let fs' := if os_rmtree_ok o d
               then filter (fun p => ~ in_tree d p) (fs h)
               else fs h in
    (Return tt, Host fs' (spawned h) (written h) (rmtrees h ++ [d])).

End Primitives.


(** ** Utility functions *)

(** A dict literal with string keys, looked up with [dict.get]. *)
Fixpoint dict_get {V : Type} (d : list (string * V)) (key : string) : option V :=
  match d with
  | [] => None
  | (k, v) :: d' => if String.eqb k key then Some v else dict_get d' key
  end.

Section Utility.
Variable o : oracle.

(** [run_command(cmd, cwd)]:

      try:
          result = subprocess.run(cmd, capture_output=True, text=True, cwd=cwd, ...)
          return result.returncode == 0, result.stdout + result.stderr
      except Exception as e:
          return False, str(e)
*)
Definition run_command (cmd : list string) (cwd : option string) : M (bool * string) :=
  try_except
    (result <- subprocess_run o cmd cwd ;;
     ret (returncode result =? 0, stdout result +:+ stderr result))
    (fun e => ret (false, exc_str e)).

(** [which(program)] *)
Definition which (program : string) : option string := os_which o program.

(** [next((p for p in paths if os.path.exists(p)), None)] *)
Fixpoint first_existing (paths : list string) : M (option string) :=
  match paths with
  | [] => ret None
  | p :: rest =>
      b <- path_exists p ;;
      if b then ret (Some p) else first_existing rest
  end.

(** [icon and os.path.exists(icon)] *)
Definition icon_present (icon : option string) : M bool :=
  match icon with
  | Some p => if truthy icon then path_exists p else ret false
  | None => ret false
  end.

(** [icon and os.path.exists(icon)], as a function of the host. *)
Definition icon_ok (h : host) (icon : option string) : bool :=
  match icon with
  | Some p => exists_in h p
  | None => false
  end.

(** None of the candidate paths exists on the host. *)
Definition none_exists (h : host) (paths : list string) : bool :=
  forallb (fun p => negb (exists_in h p)) paths.

End Utility.

(** ** Python numbers

    [int] is unbounded; [float] is IEEE 754 binary64, taken from the
    standard library's executable specification of floating-point
    arithmetic (round to nearest, ties to even). *)

Module Num.

Definition prec : Z := 53.
Definition emax : Z := 1024.

Inductive number :=
| Int (n : Z)
| Float (x : spec_float).

(** Sequencing of pure computations that may raise. *)
Definition andthen {A B} (r : outcome A) (k : A -> outcome B) : outcome B :=
  match r with
  | Return a => k a
  | Raise e => Raise e
  end.

(** [float(n)] for an int [n]. *)
Definition float_of_int (n : Z) : outcome spec_float :=
  match binary_normalize prec emax n 0 false with
  | S754_infinity _ => Raise (Exc "OverflowError" "int too large to convert to float")
  | x => Return x
  end.

Definition to_float (a : number) : outcome spec_float :=
  match a with
  | Int n => float_of_int n
  | Float x => Return x
  end.


(** [a + b] *)
Definition add (a b : number) : outcome number :=
  match a, b with
  | Int m, Int n => Return (Int (m + n))
  | _, _ =>
      andthen (to_float a) (fun x =>
      andthen (to_float b) (fun y =>
      Return (Float (SFadd prec emax x y))))
  end.

(** [int(a)]: truncation towards zero. *)
Definition to_int (a : number) : outcome Z :=
  match a with
  | Int n => Return n
  | Float (S754_zero _) => Return 0
  | Float (S754_finite s m e) => Return (cond_Zopp s (Z.shiftl (Zpos m) e))
  | Float (S754_infinity _) =>
      Raise (Exc "OverflowError" "cannot convert float infinity to integer")
  | Float S754_nan => Raise (Exc "ValueError" "cannot convert float NaN to integer")
  end.

(** [a / 2**k] for ints: the exact quotient rounded once. *)
Definition truediv_pow2 (a k : Z) : outcome spec_float :=
  match binary_normalize prec emax a (- k) false with
  | S754_infinity _ =>
      Raise (Exc "OverflowError" "integer division result too large for a float")
  | x => Return x
  end.


(** [str(n)] *)
Definition str (n : Z) : string := NilZero.string_of_int (Z.to_int n).

(** The integer nearest to [m * 2**e * 10], ties to even. *)
Definition tenths (m : positive) (e : Z) : Z :=
  if 0 <=? e then 10 * Zpos m * 2 ^ e
  else
    let d := 2 ^ (- e) in
    let q := (10 * Zpos m) / d in
    let r := (10 * Zpos m) mod d in
    if 2 * r <? d then q
    else if d <? 2 * r then q + 1
    else if Z.even q then q else q + 1.

(** [f"{x:.1f}"] *)
Definition format_1f (x : spec_float) : string :=
  match x with
  | S754_zero s => (if s then "-" else "") +:+ "0.0"
  | S754_infinity s => (if s then "-" else "") +:+ "inf"
  | S754_nan => "nan"
  | S754_finite s m e =>
      let t := tenths m e in
      (if s then "-" else "") +:+ str (t / 10) +:+ "." +:+ str (t mod 10)
  end.

End Num.


(** ** Size estimation *)

(** [format_size(size)] *)
Definition format_size (size : Z) : outcome string :=
  if 1073741824 <=? size then
    Num.andthen (Num.truediv_pow2 size 30) (fun x => Return (Num.format_1f x +:+ " GB"))
  else if 1048576 <=? size then
    Num.andthen (Num.truediv_pow2 size 20) (fun x => Return (Num.format_1f x +:+ " MB"))
  else if 1024 <=? size then
    Num.andthen (Num.truediv_pow2 size 10) (fun x => Return (Num.format_1f x +:+ " KB"))
  else Return (Num.str size +:+ " bytes").




(** ** Compiler *)

Module Compiler.
Section Compile.
Variable o : oracle.

(** The metadata dict of a build request; [None] when not supplied. *)
Definition metadata := option (list (string * string)).

(** [metadata.get(key)] as a condition: present and not empty. *)
Definition meta_field (m : list (string * string)) (key : string) : option string :=
  match dict_get m key with
  | Some EmptyString => None
  | Some v => Some v
  | None => None
  end.

Definition ps_option (m : list (string * string)) (key flag : string) : string :=
  match meta_field m key with
  | Some v => " -" +:+ flag +:+ " " +:+ dquote +:+ v +:+ dquote
  | None => ""
  end.

(** [compile_ps1(source, output, icon, admin, no_console, metadata)] *)
Definition compile_ps1 (source output : string) (icon : option string)
    (admin no_console : bool) (meta : metadata) : M (bool * string) :=
  let cmd := ["powershell"; "-ExecutionPolicy"; "Bypass"; "-Command"] in
  let ps_cmd := "Invoke-PS2EXE -InputFile " +:+ dquote +:+ source +:+ dquote
                +:+ " -OutputFile " +:+ dquote +:+ output +:+ dquote in
  has_icon <- icon_present icon ;;
  let ps_cmd := if has_icon
                then ps_cmd +:+ " -IconFile " +:+ dquote +:+ default "" icon +:+ dquote
                else ps_cmd in
  let ps_cmd := if admin then ps_cmd +:+ " -RequireAdmin" else ps_cmd in
  let ps_cmd := if no_console then ps_cmd +:+ " -NoConsole" else ps_cmd in
  let ps_cmd :=
    match meta with
    | Some ((_ :: _) as m) =>
        ps_cmd +:+ ps_option m "product" "Title" +:+ ps_option m "version" "Version"
               +:+ ps_option m "company" "Company" +:+ ps_option m "copyright" "Copyright"
    | _ => ps_cmd
    end in
  run_command o (cmd ++ [ps_cmd]) None.

(** [compile_py(source, output, icon, one_file, console)] *)
Definition compile_py (source output : string) (icon : option string)
    (one_file console : bool) : M (bool * string) :=
  let output_dir := os_dirname o output in
  let output_name := os_splitext_root o (os_basename o output) in
  let cmd := ["pyinstaller"; "--distpath"; output_dir; "--name"; output_name; "--noconfirm"] in
  let cmd := if one_file then cmd ++ ["--onefile"] else cmd in
  let cmd := if negb console then cmd ++ ["--noconsole"] else cmd in
  has_icon <- icon_present icon ;;
  let cmd := if has_icon then cmd ++ ["--icon"; default "" icon] else cmd in
  let cmd := cmd ++ [source] in
  run_command o cmd None.

(** The text of the IExpress directive file ([sed_content]). *)
Definition sed_content (output src_name temp_dir : string) : string :=
  String.concat newline
    [ "[Version]";
      "Class=IEXPRESS";
      "SEDVersion=3";
      "[Options]";
      "PackagePurpose=InstallApp";
      "ShowInstallProgramWindow=0";
      "HideExtractAnimation=1";
      "UseLongFileName=1";
      "InsideCompressed=0";
      "CAB_FixedSize=0";
      "RebootMode=N";
      "TargetName=" +:+ output;
      "FriendlyName=App";
      "AppLaunched=cmd /c " +:+ dquote +:+ src_name +:+ dquote;
      "PostInstallCmd=<None>";
      "SourceFiles=SourceFiles";
      "[Strings]";
      "[SourceFiles]";
      "SourceFiles0=" +:+ temp_dir +:+ backslash;
      "[SourceFiles0]";
      "%FILE0%=" +:+ src_name;
      "" ].

Definition default_windir : string := "C:" +:+ backslash +:+ "Windows".

(** The body of the [try] block of [compile_batch]. *)
Definition compile_batch_body (source output temp_dir : string) : M (bool * string) :=
  let src_name := os_basename o source in
  shutil_copy o source (os_join o temp_dir src_name) ;;;
  let sed_file := os_join o temp_dir "config.sed" in
  write_text o sed_file (sed_content output src_name temp_dir) ;;;
  let windir := environ_get o "WINDIR" default_windir in
  let iexpress := join3 o windir "System32" "iexpress.exe" in
  run_command o [iexpress; "/N"; "/Q"; sed_file] None.

(** [compile_batch(source, output)]:

      temp_dir = tempfile.mkdtemp()
      try:
          ...
          return run_command([iexpress, "/N", "/Q", sed_file])
      finally:
          shutil.rmtree(temp_dir, ignore_errors=True)
*)
Definition compile_batch (source output : string) : M (bool * string) :=
  temp_dir <- mkdtemp o ;;
  try_finally
    (compile_batch_body source output temp_dir)
    (shutil_rmtree_ignore_errors o temp_dir).

(** [compile_js(source, output)] *)
Definition compile_js (source output : string) : M (bool * string) :=
  run_command o ["pkg"; source; "--target"; "node18-win-x64"; "--output"; output] None.

(** The candidate locations [csc_paths] of [compile_cs]. *)
Definition csc_paths : list string :=
  let windir := environ_get o "WINDIR" default_windir in
  [ join5 o windir "Microsoft.NET" "Framework64" "v4.0.30319" "csc.exe";
    join5 o windir "Microsoft.NET" "Framework" "v4.0.30319" "csc.exe" ].

(** [compile_cs(source, output)] *)
Definition compile_cs (source output : string) : M (bool * string) :=
  csc <- first_existing csc_paths ;;
  match csc with
  | Some p => if truthy csc
              then run_command o [p; "/out:" +:+ output; source] None
              else ret (false, "CSC compiler not found")
  | None => ret (false, "CSC compiler not found")
  end.

(** The fallback location [go_path] of [compile_go]. *)
Definition go_path : string :=
  os_pathdiv o (environ_get o "LOCALAPPDATA" "") "Programs/Go/bin/go.exe".

(** [compile_go(source, output)] *)
Definition compile_go (source output : string) : M (bool * string) :=
  let go_exe := which o "go" in
  go_exe <-
    (if truthy go_exe then ret go_exe
     else
       b <- path_exists go_path ;;
       if b then ret (Some go_path) else ret go_exe) ;;
  match go_exe with
  | Some p => if truthy go_exe
              then run_command o [p; "build"; "-o"; output; source]
                                 (Some (os_dirname o source))
              else ret (false, "Go compiler not found")
  | None => ret (false, "Go compiler not found")
  end.

(** The candidate locations [ahk_paths] of [compile_ahk]. *)
Definition ahk_paths : list string :=
  [ os_pathdiv o (environ_get o "ProgramFiles" "") "AutoHotkey/Compiler/Ahk2Exe.exe";
    os_pathdiv o (environ_get o "ProgramFiles" "") "AutoHotkey/v2/Compiler/Ahk2Exe.exe" ].

(** [compile_ahk(source, output, icon)] *)
Definition compile_ahk (source output : string) (icon : option string) : M (bool * string) :=
  ahk <- first_existing ahk_paths ;;
  match ahk with
  | Some p =>
      if truthy ahk then
        let cmd := [p; "/in"; source; "/out"; output] in
        has_icon <- icon_present icon ;;
        let cmd := if has_icon then cmd ++ ["/icon"; default "" icon] else cmd in
        run_command o cmd None
      else ret (false, "AutoHotkey compiler not found")
  | None => ret (false, "AutoHotkey compiler not found")
  end.

(** [compile_rb(source, output)] *)
Definition compile_rb (source output : string) : M (bool * string) :=
  run_command o ["ocra"; source; "--output"; output] None.

(** The dispatch table of [compile]. *)
Definition compilers (source output : string) (icon : option string)
    (admin console single_file : bool) (meta : metadata)
    : list (string * M (bool * string)) :=
  [ ("ps1", compile_ps1 source output icon admin (negb console) meta);
    ("py", compile_py source output icon single_file console);
    ("bat", compile_batch source output);
    ("cmd", compile_batch source output);
    ("js", compile_js source output);
    ("vbs", compile_batch source output);
    ("ahk", compile_ahk source output icon);
    ("cs", compile_cs source output);
    ("go", compile_go source output);
    ("rb", compile_rb source output) ].

(** [compile(source, output, file_type, icon, admin, console, single_file, metadata)] *)
Definition compile (source output file_type : string) (icon : option string)
    (admin console single_file : bool) (meta : metadata) : M (bool * string) :=
  match dict_get (compilers source output icon admin console single_file meta) file_type with
  | Some compiler => compiler
  | None => ret (false, "Unsupported file type: " +:+ file_type)
  end.

(** The supported set. *)
Definition supported_types : list string :=
  ["ps1"; "py"; "bat"; "cmd"; "js"; "vbs"; "ahk"; "cs"; "go"; "rb"].

End Compile.
End Compiler.

(** ** A sample platform

    Concrete evaluations below run on this host description.  Its path
    functions follow the Windows conventions in their simple cases (no
    drive or UNC handling); the theorems do not depend on it. *)

Module Sample.

Definition is_sep (c : ascii) : bool :=
  Ascii.eqb c "092"%char || Ascii.eqb c "/"%char.

Definition is_dot (c : ascii) : bool := Ascii.eqb c "."%char.

(** Split around the last character satisfying [p]. *)
Fixpoint split_last (p : ascii -> bool) (s : string) : option (string * string) :=
  match s with
  | EmptyString => None
  | String c s' =>
      match split_last p s' with
      | Some (a, b) => Some (String c a, b)
      | None => if p c then Some (EmptyString, s') else None
      end
  end.

Fixpoint all_chars (p : ascii -> bool) (s : string) : bool :=
  match s with
  | EmptyString => true
  | String c s' => p c && all_chars p s'
  end.

Fixpoint any_char (p : ascii -> bool) (s : string) : bool :=
  match s with
  | EmptyString => false
  | String c s' => p c || any_char p s'
  end.

Definition basename (s : string) : string :=
  match split_last is_sep s with
  | Some (_, b) => b
  | None => s
  end.

Definition dirname (s : string) : string :=
  match split_last is_sep s with
  | Some (a, _) => a
  | None => EmptyString
  end.

Definition splitext_root (s : string) : string :=
  match split_last is_dot s with
  | Some (a, b) =>
      if any_char is_sep b || all_chars is_dot (basename a) then s else a
  | None => s
  end.

Definition join (a b : string) : string :=
  match a with
  | EmptyString => b
  | _ => a +:+ backslash +:+ b
  end.

(** Nothing is installed, nothing is on PATH, and starting a program
    that cannot be found raises [FileNotFoundError]. *)
Definition bare : oracle :=
  {| os_which := fun _ => None;
     os_environ := fun _ => None;
     os_getsize := fun _ => 1024;
     os_dirname := dirname;
     os_basename := basename;
     os_splitext_root := splitext_root;
     os_join := join;
     os_pathdiv := join;
     os_run := fun _ _ =>
       SpawnError (Exc "FileNotFoundError"
                       "[WinError 2] The system cannot find the file specified");
     os_mkdtemp_fault := None;
     os_copy_fault := fun _ _ => None;
     os_write_fault := fun _ => None;
     os_rmtree_ok := fun _ => true |}.

Definition empty_host : host := Host ∅ [] [] [].

Definition host_with (paths : list string) : host := Host (list_to_set paths) [] [] [].

(** The operating system refuses to remove trees (files still open). *)
Definition locked : oracle :=
  {| os_which := os_which bare;
     os_environ := os_environ bare;
     os_getsize := os_getsize bare;
     os_dirname := dirname;
     os_basename := basename;
     os_splitext_root := splitext_root;
     os_join := join;
     os_pathdiv := join;
     os_run := fun _ _ => Ran (Completed 0 "done" "");
     os_mkdtemp_fault := None;
     os_copy_fault := fun _ _ => None;
     os_write_fault := fun _ => None;
     os_rmtree_ok := fun _ => false |}.

End Sample.

(** ** Persistence stores *)

(** JSON documents: what [json.dump] writes and [json.load] reads back. *)
#[warnings="-register-all"]
Inductive json :=
| JNull
| JBool (b : bool)
| JInt (n : Z)
| JStr (s : string)
| JList (l : list json)
| JObj (items : list (string * json)).

(** One backing file of a store. *)
Inductive file_state :=
| Missing
| Corrupt
| Stored (doc : json).

Record file := File {
  content : file_state;
  writable : bool        (* whether mkdir/open/write succeed *)
}.

(** [load_json(filepath, default)]: a missing or unreadable file gives
    the default. *)
Definition load_json (f : file) (default : json) : json :=
  match content f with
  | Stored doc => doc
  | Missing | Corrupt => default
  end.

(** [save_json(filepath, data)]: the whole document is overwritten; a
    failure is printed and otherwise ignored. *)
Definition save_json (f : file) (data : json) : file :=
  if writable f then File (Stored data) true else f.

(** Python's [lst[:n]] for an integer [n]. *)
Definition slice_to {A : Type} (n : Z) (l : list A) : list A :=
  if 0 <=? n then take (Z.to_nat n) l
  else take (length l - Z.to_nat (- n))%nat l.

(** [lst.remove(x)]: the first occurrence goes. *)
Fixpoint list_remove (x : string) (l : list string) : list string :=
  match l with
  | [] => []
  | y :: l' => if String.eqb x y then l' else y :: list_remove x l'
  end.

(** [x in lst] *)
Definition list_contains (x : string) (l : list string) : bool :=
  existsb (String.eqb x) l.

Module Settings.

Definition DEFAULT_SETTINGS : gmap string json :=
  list_to_map
    [ ("theme", JStr "Dark");
      ("post_build_action", JStr "None");
      ("post_build_copy_path", JStr "");
      ("show_notifications", JBool true);
      ("auto_check_updates", JBool true);
      ("max_recent_files", JInt 10);
      ("max_history_items", JInt 50);
      ("default_profile", JStr "Default");
      ("signing_cert_path", JStr "");
      ("signing_cert_password", JStr "") ].

(** One pass of the loop of [load]:
      if key in self._settings: self._settings[key] = value *)
Definition load_item (settings : gmap string json) (item : string * json)
    : gmap string json :=
  if decide (is_Some (settings !! item.1))
  then <[item.1 := item.2]> settings
  else settings.

(** [load]: [saved.items()] of anything but an object raises. A key
    repeated in the file is assigned in file order, so the last value
    stays, as in the dict [json.load] builds. *)
Definition load (settings : gmap string json) (f : file) : outcome (gmap string json) :=
  match load_json f (JObj []) with
  | JObj items => Return (foldl load_item settings items)
  | _ => Raise (Exc "AttributeError" "object has no attribute 'items'")
  end.

(** [__init__]: a copy of the defaults, then [load]. *)
Definition init (f : file) : outcome (gmap string json) := load DEFAULT_SETTINGS f.

(** [save] *)
Definition save (settings : gmap string json) (f : file) : file :=
  save_json f (JObj (map_to_list settings)).

(** [get(key, default)] *)
Definition get (settings : gmap string json) (key : string) (default : json) : json :=
  match settings !! key with
  | Some v => v
  | None => default
  end.

(** [set(key, value)] *)
Definition set (settings : gmap string json) (f : file) (key : string) (value : json)
    : gmap string json * file :=
  let settings' := <[key := value]> settings in
  (settings', save settings' f).

End Settings.

Module RecentFiles.

(** [save] *)
Definition save (files : list string) (f : file) : file :=
  save_json f (JList (JStr <$> files)).

(** [add(filepath)] *)
Definition add (max_items : Z) (files : list string) (f : file) (filepath : string)
    : list string * file :=
  let files := if list_contains filepath files then list_remove filepath files else files in
  let files := filepath :: files in
  let files := slice_to max_items files in
  (files, save files f).

(** The paths of a JSON list of strings, the only documents [save]
    writes; [None] for any other document. *)
Fixpoint strings_of (l : list json) : option (list string) :=
  match l with
  | [] => Some []
  | JStr p :: l' => option_map (cons p) (strings_of l')
  | _ :: _ => None
  end.

(** [load]:
      saved = load_json(RECENT_FILE, [])
      self._files = [f for f in saved if os.path.exists(f)][:self.max_items]
    for a missing or unreadable file and for a stored list of strings.
    Documents of any other shape are outside this model ([None]). *)
Definition load (max_items : Z) (f : file) (h : host) : option (list string) :=
  match load_json f (JList []) with
  | JList l =>
      option_map (fun saved => slice_to max_items (List.filter (exists_in h) saved))
                 (strings_of l)
  | _ => None
  end.

End RecentFiles.

Module CompilationHistory.

Record entry := Entry {
  timestamp : string;
  source : string;
  output : string;
  type : string;
  success : bool;
  profile : string;
  size : Z
}.

Definition to_json (e : entry) : json :=
  JObj [ ("timestamp", JStr (timestamp e));
         ("source", JStr (source e));
         ("output", JStr (output e));
         ("type", JStr (type e));
         ("success", JBool (success e));
         ("profile", JStr (profile e));
         ("size", JInt (size e)) ].

(** [save] *)
Definition save (history : list entry) (f : file) : file :=
  save_json f (JList (to_json <$> history)).

(** [add(source, output, file_type, success, profile, size)]; [now] is
    [datetime.now().isoformat()]. *)
Definition add (max_items : Z) (history : list entry) (f : file) (now : string)
    (source output file_type : string) (success : bool) (profile : string) (size : Z)
    : list entry * file :=
  let e := Entry now source output file_type success profile size in
  let history := e :: history in
  let history := slice_to max_items history in
  (history, save history f).

End CompilationHistory.

(** A sequence of [add] calls, oldest call first; each call's arguments
    and clock reading are given as the entry it builds. *)
Definition add_all (max_items : Z) (history : list CompilationHistory.entry) (f : file)
    (calls : list CompilationHistory.entry) : list CompilationHistory.entry * file :=
  foldl (fun st e =>
           CompilationHistory.add max_items st.1 st.2
             (CompilationHistory.timestamp e) (CompilationHistory.source e)
             (CompilationHistory.output e) (CompilationHistory.type e)
             (CompilationHistory.success e) (CompilationHistory.profile e)
             (CompilationHistory.size e))
        (history, f) calls.

(** A sample history entry. *)
Definition build (n : Z) : CompilationHistory.entry :=
  CompilationHistory.Entry "2024-05-01T10:00:00" "a.py" "a.exe" "py" true "Default" n.


(** ** DependencyChecker *)

(** [c.lower()] on the ASCII letters; other bytes are left as they are. *)
Definition ascii_lower (c : ascii) : ascii :=
  let n := nat_of_ascii c in
  if (Nat.leb 65 n && Nat.leb n 90)%bool then ascii_of_nat (n + 32) else c.

(** [s.lower()] *)
Fixpoint str_lower (s : string) : string :=
  match s with
  | EmptyString => EmptyString
  | String c s' => String (ascii_lower c) (str_lower s')
  end.

(** [sub in s] *)
Fixpoint str_contains (sub s : string) : bool :=
  String.prefix sub s ||
  match s with
  | EmptyString => false
  | String _ s' => str_contains sub s'
  end.

Module DependencyChecker.
Section Checker.
Variable o : oracle.

(** [any(p.exists() for p in paths)] *)
Fixpoint any_exists (paths : list string) : M bool :=
  match paths with
  | [] => ret false
  | p :: rest =>
      b <- path_exists p ;;
      if b then ret true else any_exists rest
  end.

(** [check_ps2exe()], on Windows, where [subprocess.CREATE_NO_WINDOW]
    exists:

      try:
          result = subprocess.run(["powershell", "-Command", "Get-Module ..."], ...)
          return "ps2exe" in result.stdout.lower()
      except Exception:
          return False
*)
Definition check_ps2exe : M bool :=
  try_except
    (result <- subprocess_run o
                 ["powershell"; "-Command"; "Get-Module -ListAvailable ps2exe"] None ;;
     ret (str_contains "ps2exe" (str_lower (stdout result))))
    (fun _ => ret false).

(** [which(...) is not None] *)
Definition on_path (program : string) : bool :=
  match which o program with
  | Some _ => true
  | None => false
  end.

Definition check_pyinstaller : M bool := ret (on_path "pyinstaller").
Definition check_pkg : M bool := ret (on_path "pkg").
Definition check_ruby : M bool := ret (on_path "ocra").

(** [check_go()] *)
Definition check_go : M bool :=
  if truthy (which o "go") then ret true
  else path_exists
         (os_pathdiv o (environ_get o "LOCALAPPDATA" "") "Programs/Go/bin/go.exe").

(** The three locations [check_ahk] probes. *)
Definition ahk_check_paths : list string :=
  [ os_pathdiv o (environ_get o "ProgramFiles" "") "AutoHotkey/Compiler/Ahk2Exe.exe";
    os_pathdiv o (environ_get o "ProgramFiles" "") "AutoHotkey/v2/Compiler/Ahk2Exe.exe";
    os_pathdiv o (environ_get o "ProgramFiles(x86)" "") "AutoHotkey/Compiler/Ahk2Exe.exe" ].

(** [check_ahk()] *)
Definition check_ahk : M bool := any_exists ahk_check_paths.

(** [check_csc()] *)
Definition check_csc : M bool :=
  let windir := environ_get o "WINDIR" Compiler.default_windir in
  any_exists
    [ os_pathdiv o windir "Microsoft.NET/Framework64/v4.0.30319/csc.exe";
      os_pathdiv o windir "Microsoft.NET/Framework/v4.0.30319/csc.exe" ].

(** [check_iexpress()] *)
Definition check_iexpress : M bool :=
  let windir := environ_get o "WINDIR" Compiler.default_windir in
  path_exists (os_pathdiv o windir "System32/iexpress.exe").

(** The table [checkers] of [check_compiler]. *)
Definition checkers : list (string * M bool) :=
  [ ("ps1", check_ps2exe);
    ("py", check_pyinstaller);
    ("bat", check_iexpress);
    ("cmd", check_iexpress);
    ("js", check_pkg);
    ("vbs", check_iexpress);
    ("ahk", check_ahk);
    ("cs", check_csc);
    ("go", check_go);
    ("rb", check_ruby) ].

(** [check_compiler(file_type)] *)
Definition check_compiler (file_type : string) : M bool :=
  match dict_get checkers file_type with
  | Some checker => checker
  | None => ret false
  end.

End Checker.
End DependencyChecker.

(** ** BuildProfiles *)

(** [d[key] = value] on a dict that keeps insertion order: the value of
    an existing key is replaced where it stands, a new key goes last. *)
Fixpoint dict_set {V : Type} (key : string) (value : V) (d : list (string * V))
    : list (string * V) :=
  match d with
  | [] => [(key, value)]
  | (k, v) :: d' =>
      if String.eqb k key then (k, value) :: d' else (k, v) :: dict_set key value d'
  end.

Module BuildProfiles.

Definition profile (console admin : bool) : json :=
  JObj [ ("console", JBool console);
         ("admin", JBool admin);
         ("single_file", JBool true);
         ("version", JStr "1.0.0.0");
         ("company", JStr "");
         ("copyright", JStr "");
         ("description", JStr "");
         ("product", JStr "") ].

Definition DEFAULT_PROFILES : list (string * json) :=
  [ ("Default", profile false false);
    ("Console App", profile true false);
    ("Admin Tool", profile true true);
    ("GUI Application", profile false false) ].

(** One pass of the loop of [load]:  self._profiles[name] = profile *)
Definition load_item (profiles : list (string * json)) (item : string * json)
    : list (string * json) :=
  dict_set item.1 item.2 profiles.

(** [load]: every saved profile replaces or extends the table.  A name
    repeated in the file is assigned in file order, so the last value
    stays, as in the dict [json.load] builds. *)
Definition load (profiles : list (string * json)) (f : file)
    : outcome (list (string * json)) :=
  match load_json f (JObj []) with
  | JObj items => Return (foldl load_item profiles items)
  | _ => Raise (Exc "AttributeError" "object has no attribute 'items'")
  end.

(** [__init__]: a copy of the defaults, then [load]. *)
Definition init (f : file) : outcome (list (string * json)) := load DEFAULT_PROFILES f.

(** [save] *)
Definition save (profiles : list (string * json)) (f : file) : file :=
  save_json f (JObj profiles).

(** [get(name)] *)
Definition get (profiles : list (string * json)) (name : string) : option json :=
  dict_get profiles name.

(** [set(name, profile)] *)
Definition set (profiles : list (string * json)) (f : file) (name : string) (p : json)
    : list (string * json) * file :=
  let profiles' := dict_set name p profiles in
  (profiles', save profiles' f).

(** [names()] *)
Definition names (profiles : list (string * json)) : list string := profiles.*1.

End BuildProfiles.


(** A Windows host description with the usual environment; nothing is
    on PATH and every spawn succeeds with the given output. *)
Definition windows (out : string) : oracle :=
  {| os_which := fun _ => None;
     os_environ := fun name =>
       dict_get [ ("WINDIR", "C:" +:+ backslash +:+ "Windows");
                  ("ProgramFiles", "C:" +:+ backslash +:+ "Program Files");
                  ("ProgramFiles(x86)", "C:" +:+ backslash +:+ "Program Files (x86)");
                  ("LOCALAPPDATA", "C:" +:+ backslash +:+ "Users" +:+ backslash +:+ "me") ]
                name;
     os_getsize := fun _ => 1024;
     os_dirname := Sample.dirname;
     os_basename := Sample.basename;
     os_splitext_root := Sample.splitext_root;
     os_join := Sample.join;
     os_pathdiv := Sample.join;
     os_run := fun _ _ => Ran (Completed 0 out "");
     os_mkdtemp_fault := None;
     os_copy_fault := fun _ _ => None;
     os_write_fault := fun _ => None;
     os_rmtree_ok := fun _ => true |}.


(** [metadata.get(key)] as a condition, for the optional metadata dict
    of a build request. *)
Definition meta_value (meta : Compiler.metadata) (key : string) : option string :=
  match meta with
  | Some m => Compiler.meta_field m key
  | None => None
  end.


(** The same host description with Go on PATH. *)
Definition windows_with_go (out : string) : oracle :=
  {| os_which := fun program =>
       if String.eqb program "go"
       then Some ("C:" +:+ backslash +:+ "Go" +:+ backslash +:+ "bin" +:+ backslash +:+ "go.exe")
       else None;
     os_environ := os_environ (windows out);
     os_getsize := os_getsize (windows out);
     os_dirname := Sample.dirname;
     os_basename := Sample.basename;
     os_splitext_root := Sample.splitext_root;
     os_join := Sample.join;
     os_pathdiv := Sample.join;
     os_run := os_run (windows out);
     os_mkdtemp_fault := None;
     os_copy_fault := fun _ _ => None;
     os_write_fault := fun _ => None;
     os_rmtree_ok := fun _ => true |}.


(** The unit [format_size] picks for a size of at least 1024 bytes: the
    power of two it divides by and the suffix it prints. *)
Definition unit_of (size : Z) : Z * string :=
  if 1073741824 <=? size then (30, " GB")
  else if 1048576 <=? size then (20, " MB")
  else (10, " KB").



(** A computation that either answers [False] with a message without
    touching the host, or is one call of [run_command] in the working
    directory [cwd]. *)
Definition answers_or_spawns (o : oracle) (cwd : option string) (m : M (bool * string))
    (h : host) : Prop :=
  (exists msg, m h = (Return (false, msg), h))
  \/ (exists cmd, m h = run_command o cmd cwd h).

(** The working directory [compile] passes on: the directory of the
    source for Go, the caller's for every other type. *)
Definition working_directory (o : oracle) (source file_type : string) : option string :=
  if String.eqb file_type "go" then Some (os_dirname o source) else None.


(** * Properties *)

(** ** The effect monad *)

Lemma bind_Return {A B} (m : M A) (k : A -> M B) h a h' :
  m h = (Return a, h') -> bind m k h = k a h'.
Proof. intros E. unfold bind. now rewrite E. Qed.

Lemma bind_Raise {A B} (m : M A) (k : A -> M B) h e h' :
  m h = (Raise e, h') -> bind m k h = (Raise e, h').
Proof. intros E. unfold bind. now rewrite E. Qed.

(** ** run_command *)

Lemma run_command_eq o cmd cwd h :
  run_command o cmd cwd h =
    (Return match os_run o cmd cwd with
            | Ran p => (returncode p =? 0, stdout p +:+ stderr p)
            | SpawnError e => (false, exc_str e)
            end,
     after_spawn h cmd cwd).
Proof.
  unfold run_command, try_except, bind, subprocess_run, ret, after_spawn.
  destruct (os_run o cmd cwd); reflexivity.
Qed.


(** ** Dispatch *)

Section Dispatch.
Variable o : oracle.
Variables (source output : string) (icon : option string).
Variables (admin console single_file : bool) (meta : Compiler.metadata).

Abbreviation compile ft :=
  (Compiler.compile o source output ft icon admin console single_file meta).

(** The supported set is the key set of the dispatch table. *)
Lemma supported_types_keys :
  (Compiler.compilers o source output icon admin console single_file meta).*1
  = Compiler.supported_types.
Proof. reflexivity. Qed.

Lemma compile_lookup (file_type : string) (m : M (bool * string)) :
  dict_get (Compiler.compilers o source output icon admin console single_file meta)
           file_type = Some m ->
  compile file_type = m.
Proof. intros E. unfold Compiler.compile. now rewrite E. Qed.

(** C2. A file type outside the supported set gives
    [(False, "Unsupported file type: <type>")] and leaves the host as it
    was: nothing is spawned. *)
Theorem compile_unsupported (file_type : string) (h : host) :
  ~ In file_type Compiler.supported_types ->
  compile file_type h = (Return (false, "Unsupported file type: " +:+ file_type), h)
  /\ spawned (snd (compile file_type h)) = spawned h.
Proof.
  intros Hn.
  assert (E : compile file_type h
              = (Return (false, "Unsupported file type: " +:+ file_type), h)).
  { unfold Compiler.compile, Compiler.compilers.
    cbn [dict_get].
    repeat match goal with
    | |- context [String.eqb ?k file_type] =>
        destruct (String.eqb_spec k file_type) as [E|_];
        [exfalso; apply Hn; rewrite <- E; cbn; tauto|]
    end.
    reflexivity. }
  rewrite E. split; reflexivity.
Qed.

Lemma icon_present_eq (ic : option string) (h : host) :
  icon_present ic h = (Return (icon_ok h ic), h).
Proof. destruct ic as [[|c p]|]; reflexivity. Qed.

(** The argument vector [compile_py] builds on host [h]. *)
Lemma compile_py_eq (h : host) :
  Compiler.compile_py o source output icon single_file console h =
  run_command o
    (["pyinstaller"; "--distpath"; os_dirname o output;
      "--name"; os_splitext_root o (os_basename o output); "--noconfirm"]
     ++ (if single_file then ["--onefile"] else [])
     ++ (if console then [] else ["--noconsole"])
     ++ (match icon with
         | Some p => if exists_in h p then ["--icon"; p] else []
         | None => []
         end)
     ++ [source]) None h.
Proof.
  unfold Compiler.compile_py.
  rewrite (bind_Return _ _ _ _ _ (icon_present_eq icon h)).
  destruct single_file, console, icon as [p|]; cbn [negb icon_ok default];
    try destruct (exists_in h p); reflexivity.
Qed.

(** C6. For a Python build request exactly one process is started, and
    its argument vector is: the tool name, [--distpath] with the
    directory part of the requested output path, [--name] with the base
    name of that path without its extension, [--noconfirm], then
    [--onefile] exactly when single_file is true, [--noconsole] exactly
    when the console flag is false, [--icon <path>] exactly when an icon
    path is supplied and exists on disk, and last the source. *)
Theorem compile_py_argv (h : host) :
  spawned (snd (compile "py" h)) =
  spawned h ++
  [ (["pyinstaller"; "--distpath"; os_dirname o output;
      "--name"; os_splitext_root o (os_basename o output); "--noconfirm"]
     ++ (if single_file then ["--onefile"] else [])
     ++ (if console then [] else ["--noconsole"])
     ++ (match icon with
         | Some p => if exists_in h p then ["--icon"; p] else []
         | None => []
         end)
     ++ [source], None) ].
Proof.
  rewrite (compile_lookup "py" _ eq_refl), compile_py_eq, run_command_eq.
  reflexivity.
Qed.

(** *** Tools located by the compile routine itself *)

Lemma first_existing_none (h : host) (paths : list string) :
  none_exists h paths = true -> first_existing paths h = (Return None, h).
Proof.
  induction paths as [|p ps IH]; cbn; [reflexivity|].
  intros [Hp Hps]%andb_prop. unfold bind, path_exists.
  apply negb_true_iff in Hp. rewrite Hp. now apply IH.
Qed.

Lemma compile_cs_missing (h : host) :
  none_exists h (Compiler.csc_paths o) = true ->
  Compiler.compile_cs o source output h = (Return (false, "CSC compiler not found"), h).
Proof.
  intros H. unfold Compiler.compile_cs.
  now rewrite (bind_Return _ _ _ _ _ (first_existing_none h _ H)).
Qed.

Lemma compile_ahk_missing (h : host) :
  none_exists h (Compiler.ahk_paths o) = true ->
  Compiler.compile_ahk o source output icon h
    = (Return (false, "AutoHotkey compiler not found"), h).
Proof.
  intros H. unfold Compiler.compile_ahk.
  now rewrite (bind_Return _ _ _ _ _ (first_existing_none h _ H)).
Qed.

Lemma compile_go_missing (h : host) :
  truthy (which o "go") = false ->
  exists_in h (Compiler.go_path o) = false ->
  Compiler.compile_go o source output h = (Return (false, "Go compiler not found"), h).
Proof.
  intros Hw Hp. unfold Compiler.compile_go, bind, path_exists, ret.
  rewrite Hw, Hp. destruct (which o "go"); [rewrite Hw|]; reflexivity.
Qed.

(** *** Tools handed to [run_command] unchecked *)

Lemma spawn_only (cmd : list string) (h : host) :
  spawned (snd (run_command o cmd None h)) = spawned h ++ [(cmd, None)]
  /\ forall e, os_run o cmd None = SpawnError e ->
       fst (run_command o cmd None h) = Return (false, exc_str e).
Proof.
  rewrite run_command_eq. split; [reflexivity|].
  intros e E. cbn. now rewrite E.
Qed.

Lemma compile_ps1_spawns (h : host) :
  exists cmd, Compiler.compile_ps1 o source output icon admin (negb console) meta h
              = run_command o cmd None h.
Proof.
  unfold Compiler.compile_ps1.
  rewrite (bind_Return _ _ _ _ _ (icon_present_eq icon h)).
  eexists. reflexivity.
Qed.

(** The four file types whose tool is started by name. *)
Lemma compile_by_name (file_type : string) (h : host) :
  In file_type ["ps1"; "py"; "js"; "rb"] ->
  exists cmd, compile file_type h = run_command o cmd None h.
Proof.
  cbn. intros [<-|[<-|[<-|[<-|[]]]]].
  - rewrite (compile_lookup "ps1" _ eq_refl). apply compile_ps1_spawns.
  - rewrite (compile_lookup "py" _ eq_refl), compile_py_eq. eexists. reflexivity.
  - rewrite (compile_lookup "js" _ eq_refl). eexists. reflexivity.
  - rewrite (compile_lookup "rb" _ eq_refl). eexists. reflexivity.
Qed.

(** *** The batch workspace *)

Ltac step_batch :=
  unfold Compiler.compile_batch, Compiler.compile_batch_body, try_finally, bind,
    mkdtemp, shutil_copy, write_text, shutil_rmtree_ignore_errors;
  repeat (rewrite run_command_eq || cbn [fst snd fs spawned written rmtrees after_spawn]
          || match goal with
             | |- context [match ?x with _ => _ end] =>
                 lazymatch x with
                 | os_mkdtemp_fault _ => destruct x eqn:?
                 | os_copy_fault _ _ _ => destruct x eqn:?
                 | os_write_fault _ _ => destruct x eqn:?
                 | exists_in _ _ => destruct x eqn:?
                 end
             | |- context [if ?x then _ else _] =>
                 lazymatch x with
                 | exists_in _ _ => destruct x eqn:?
                 end
             end).

Lemma compile_batch_no_workspace (h : host) (e : exc) :
  os_mkdtemp_fault o = Some e ->
  Compiler.compile_batch o source output h = (Raise e, h).
Proof. intros E. unfold Compiler.compile_batch, bind, mkdtemp. now rewrite E. Qed.

Lemma compile_batch_rmtrees (h : host) :
  os_mkdtemp_fault o = None ->
  rmtrees (snd (Compiler.compile_batch o source output h)) = rmtrees h ++ [fresh (fs h)].
Proof. intros E. step_batch; congruence. Qed.

Lemma compile_batch_spawned (h : host) :
  (exists r, fst (Compiler.compile_batch o source output h) = Return r
             /\ exists cmd, spawned (snd (Compiler.compile_batch o source output h))
                              = spawned h ++ [(cmd, None)])
  \/ (exists e, fst (Compiler.compile_batch o source output h) = Raise e
                /\ spawned (snd (Compiler.compile_batch o source output h)) = spawned h).
Proof. step_batch; eauto. Qed.

(** Whenever [compile_batch] returns a result, the directive file was
    written into the workspace with the text of [sed_content]. *)
Lemma compile_batch_directive (h : host) (r : bool * string) :
  fst (Compiler.compile_batch o source output h) = Return r ->
  written (snd (Compiler.compile_batch o source output h))
  = written h ++ [(os_join o (fresh (fs h)) "config.sed",
                   Compiler.sed_content output (os_basename o source) (fresh (fs h)))].
Proof. step_batch; intros; congruence. Qed.

(** C4 (as amended). Once the workspace exists, [compile_batch] calls
    [shutil.rmtree(temp_dir, ignore_errors=True)] exactly once on every
    exit path, whether the packager succeeded, failed, could not be
    started, or an earlier step raised.  When the operating system
    carries the removal out, neither the workspace nor anything inside
    it exists afterwards; when it refuses, the error is ignored and the
    workspace stays. *)
Theorem compile_batch_cleanup (h : host) :
  os_mkdtemp_fault o = None ->
  let d := fresh (fs h) in
  let h' := snd (Compiler.compile_batch o source output h) in
(d ∉ fs h)
  /\ rmtrees h' = rmtrees h ++ [d]
  /\ (os_rmtree_ok o d = true -> forall p, in_tree o d p -> p ∉ fs h')
  /\ (os_rmtree_ok o d = false -> d ∈ fs h').
Proof.
  intros E d h'. split; [apply is_fresh|].
  split; [apply compile_batch_rmtrees, E|].
  subst h'. fold d. split; intros Hok.
  - intros p Hp. step_batch; try congruence; fold d; rewrite Hok;
      rewrite elem_of_filter; tauto.
  - step_batch; try congruence; fold d; rewrite Hok; set_solver.
Qed.

(** C1 (as amended). For the three file types whose compile routine
    locates the tool itself (cs, go, ahk), a tool absent from every
    location that routine searches gives [(False, "<Tool> compiler not
    found")] and the host is untouched: nothing is spawned.  For ps1,
    py, js and rb no presence check is made: exactly one spawn is
    attempted, and a tool that cannot be started surfaces as
    [(False, str(e))] of the spawn exception.  For bat, cmd and vbs the
    packager path is handed to [run_command] unchecked as well: whenever
    a result is returned, one spawn was attempted. *)
Theorem compile_missing_tool (h : host) :
  (none_exists h (Compiler.csc_paths o) = true ->
   compile "cs" h = (Return (false, "CSC compiler not found"), h))
  /\ (truthy (which o "go") = false -> exists_in h (Compiler.go_path o) = false ->
      compile "go" h = (Return (false, "Go compiler not found"), h))
  /\ (none_exists h (Compiler.ahk_paths o) = true ->
      compile "ahk" h = (Return (false, "AutoHotkey compiler not found"), h))
  /\ (forall file_type, In file_type ["ps1"; "py"; "js"; "rb"] ->
      exists cmd,
        spawned (snd (compile file_type h)) = spawned h ++ [(cmd, None)]
        /\ forall e, os_run o cmd None = SpawnError e ->
             fst (compile file_type h) = Return (false, exc_str e))
  /\ (forall file_type r, In file_type ["bat"; "cmd"; "vbs"] ->
      fst (compile file_type h) = Return r ->
      exists cmd, spawned (snd (compile file_type h)) = spawned h ++ [(cmd, None)]).
Proof.
  repeat split.
  - rewrite (compile_lookup "cs" _ eq_refl). apply compile_cs_missing.
  - rewrite (compile_lookup "go" _ eq_refl). apply compile_go_missing.
  - rewrite (compile_lookup "ahk" _ eq_refl). apply compile_ahk_missing.
  - intros ft Hft. destruct (compile_by_name ft h Hft) as [cmd ->].
    exists cmd. apply spawn_only.
  - intros ft r Hft.
    assert (E : compile ft = Compiler.compile_batch o source output).
    { cbn in Hft. destruct Hft as [<-|[<-|[<-|[]]]]; reflexivity. }
    rewrite E. intros Hr.
    destruct (compile_batch_spawned h) as [(_ & _ & cmd & Hc)|(e & He & _)].
    + now exists cmd.
    + congruence.
Qed.

End Dispatch.

Lemma compile_unsupported_witness :
  Compiler.compile Sample.bare "a.exe" "b.exe" "exe" None false false true None Sample.empty_host
    = (Return (false, "Unsupported file type: exe"), Sample.empty_host)
  /\ spawned (snd (Compiler.compile Sample.bare "a.exe" "b.exe" "exe" None false false
                     true None Sample.empty_host)) = [].
Proof.
  apply (compile_unsupported Sample.bare "a.exe" "b.exe" None false false true None
           "exe" Sample.empty_host).
  cbn. intros H. repeat (destruct H as [H|H]; [discriminate H|]). exact H.
Defined.

(** C1 fails as stated: on a host where nothing is installed and
    nothing is on PATH, compiling a Python source attempts a spawn, and
    the message is the operating system's, which does not name the
    tool. *)
Lemma compile_py_missing_tool_spawns :
  which Sample.bare "pyinstaller" = None
  /\ fs Sample.empty_host = ∅
  /\ Compiler.compile Sample.bare "hello.py" "out\hello.exe" "py" None false false true None
       Sample.empty_host
     = (Return (false, "[WinError 2] The system cannot find the file specified"),
        Host ∅ [(["pyinstaller"; "--distpath"; "out"; "--name"; "hello"; "--noconfirm";
                  "--onefile"; "--noconsole"; "hello.py"], None)] [] [])
  /\ spawned (snd (Compiler.compile Sample.bare "hello.py" "out\hello.exe" "py" None false
                     false true None Sample.empty_host)) <> spawned Sample.empty_host.
Proof.
  repeat split; try reflexivity. vm_compute. discriminate.
Qed.

Lemma compile_missing_tool_witness :
  Compiler.compile Sample.bare "a.cs" "a.exe" "cs" None false false true None Sample.empty_host
    = (Return (false, "CSC compiler not found"), Sample.empty_host)
  /\ Compiler.compile Sample.bare "a.go" "a.exe" "go" None false false true None
       Sample.empty_host
     = (Return (false, "Go compiler not found"), Sample.empty_host)
  /\ Compiler.compile Sample.bare "a.ahk" "a.exe" "ahk" None false false true None
       Sample.empty_host
     = (Return (false, "AutoHotkey compiler not found"), Sample.empty_host).
Proof.
  destruct (compile_missing_tool Sample.bare "a.cs" "a.exe" None false false true None
              Sample.empty_host) as (Hcs & _).
  destruct (compile_missing_tool Sample.bare "a.go" "a.exe" None false false true None
              Sample.empty_host) as (_ & Hgo & _).
  destruct (compile_missing_tool Sample.bare "a.ahk" "a.exe" None false false true None
              Sample.empty_host) as (_ & _ & Hahk & _).
  split; [apply Hcs; reflexivity|].
  split; [apply Hgo; reflexivity|apply Hahk; reflexivity].
Defined.

(** C4 fails as stated: when the operating system refuses the removal,
    [compile_batch] returns normally and the workspace it created is
    still there. *)
Lemma compile_batch_leaves_workspace :
  let h := Sample.host_with ["hello.bat"] in
  let r := Compiler.compile_batch Sample.locked "hello.bat" "out\hello.exe" h in
  fst r = Return (true, "done")
  /\ rmtrees (snd r) = [fresh (fs h)]
  /\ exists_in h (fresh (fs h)) = false
  /\ exists_in (snd r) (fresh (fs h)) = true.
Proof. vm_compute. repeat split. Qed.

Lemma compile_batch_cleanup_witness :
  let h := Sample.host_with ["hello.bat"] in
  let d := fresh (fs h) in
  let h' := snd (Compiler.compile_batch Sample.bare "hello.bat" "out\hello.exe" h) in
  (d ∉ fs h)
  /\ rmtrees h' = rmtrees h ++ [d]
  /\ (forall p, in_tree Sample.bare d p -> p ∉ fs h').
Proof.
  intros h d h'.
  destruct (compile_batch_cleanup Sample.bare "hello.bat" "out\hello.exe" h eq_refl)
    as (Hfresh & Hcalls & Hgone & _).
  split; [exact Hfresh|]. split; [exact Hcalls|]. apply Hgone. reflexivity.
Defined.

(** C5: a source that vanished before the build makes the copy into the
    workspace raise; the exception leaves [compile] instead of being
    turned into a failed result.  The workspace is still cleaned up. *)
Theorem compile_batch_failure_escapes :
  Compiler.compile Sample.bare "gone.bat" "out\gone.exe" "bat" None false false true None
    Sample.empty_host
  = (Raise (Exc "FileNotFoundError" "[Errno 2] No such file or directory: 'gone.bat'"),
     Host ∅ [] [] [fresh (∅ : gset string)]).
Proof. vm_compute. reflexivity. Qed.

(** ** Persistence stores *)

Lemma slice_to_nonneg {A} (n : Z) (l : list A) :
  0 <= n -> slice_to n l = take (Z.to_nat n) l.
Proof. intros H. unfold slice_to. destruct (Z.leb_spec 0 n); [reflexivity|lia]. Qed.

Lemma slice_to_length {A} (n : Z) (l : list A) :
  0 <= n -> Z.of_nat (length (slice_to n l)) <= n.
Proof. intros H. rewrite slice_to_nonneg, length_take by lia. lia. Qed.

Lemma take_cons_take {A} (n : nat) (x : A) (l : list A) :
  take n (x :: take n l) = take n (x :: l).
Proof.
  destruct n as [|n]; [reflexivity|]. cbn. f_equal.
  rewrite take_take. f_equal. lia.
Qed.

(** *** CompilationHistory *)

Lemma history_add_fst max_items history f (e : CompilationHistory.entry) :
  (CompilationHistory.add max_items history f
     (CompilationHistory.timestamp e) (CompilationHistory.source e)
     (CompilationHistory.output e) (CompilationHistory.type e)
     (CompilationHistory.success e) (CompilationHistory.profile e)
     (CompilationHistory.size e)).1
  = slice_to max_items (e :: history).
Proof. destruct e. reflexivity. Qed.

Lemma add_all_snoc max_items history f calls e :
  (add_all max_items history f (calls ++ [e])).1
  = slice_to max_items (e :: (add_all max_items history f calls).1).
Proof. unfold add_all. rewrite foldl_app. cbn [foldl]. apply history_add_fst. Qed.

Lemma add_all_take max_items history f calls :
  0 <= max_items -> calls <> [] ->
  (add_all max_items history f calls).1
  = take (Z.to_nat max_items) (reverse calls ++ history).
Proof.
  intros Hm. induction calls as [|e calls IH] using rev_ind; [congruence|].
  intros _. rewrite add_all_snoc, slice_to_nonneg, reverse_snoc by lia.
  destruct calls as [|e0 calls0]; [reflexivity|].
  rewrite IH by congruence. apply take_cons_take.
Qed.

Lemma add_all_saved max_items history f calls :
  writable f = true -> calls <> [] ->
  (add_all max_items history f calls).2
  = File (Stored (JList (CompilationHistory.to_json
                           <$> (add_all max_items history f calls).1))) true.
Proof.
  intros Hw. induction calls as [|e calls IH] using rev_ind; [congruence|].
  intros _. unfold add_all. rewrite foldl_app. cbn [foldl].
  fold (add_all max_items history f calls).
  unfold CompilationHistory.add, CompilationHistory.save, save_json. cbn [fst snd].
  destruct calls as [|e0 calls0]; [cbn; now rewrite Hw|].
  now rewrite IH by congruence.
Qed.

(** C8. With a cap [max_items >= 0], after any non-empty sequence of
    [add] calls on any starting list the history is the entries added,
    newest first, followed by the older ones, cut at the cap; so it
    never holds more than [max_items] entries, and [max_items + 5] adds
    leave exactly the [max_items] newest, the 5 oldest evicted.  That
    list is what the backing file holds when it can be written. *)
Theorem history_add_cap (max_items : Z) (history : list CompilationHistory.entry)
    (f : file) (calls : list CompilationHistory.entry) :
  0 <= max_items -> calls <> [] ->
  let history' := (add_all max_items history f calls).1 in
  history' = take (Z.to_nat max_items) (reverse calls ++ history)
  /\ Z.of_nat (length history') <= max_items
  /\ (Z.of_nat (length calls) = max_items + 5 ->
      history' = reverse (drop 5 calls) /\ Z.of_nat (length history') = max_items)
  /\ (writable f = true ->
      content (add_all max_items history f calls).2
      = Stored (JList (CompilationHistory.to_json <$> history'))).
Proof.
  intros Hm Hne history'.
  assert (E : history' = take (Z.to_nat max_items) (reverse calls ++ history))
    by (apply add_all_take; assumption).
  split; [exact E|]. split; [|split].
  - rewrite E, length_take. lia.
  - intros Hlen.
    assert (E' : history' = reverse (drop 5 calls)).
    { rewrite E, take_app_le by (rewrite length_reverse; lia).
      rewrite take_reverse. do 2 f_equal. lia. }
    split; [exact E'|].
    rewrite E', length_reverse, length_drop. lia.
  - intros Hw. now rewrite add_all_saved.
Qed.

Lemma history_add_cap_witness :
  let calls := build <$> [1; 2; 3; 4; 5; 6; 7] in
  let history' := (add_all 2 [build 0] (File Missing true) calls).1 in
  history' = [build 7; build 6]
  /\ Z.of_nat (length history') <= 2
  /\ (Z.of_nat (length calls) = 2 + 5 ->
      history' = reverse (drop 5 calls) /\ Z.of_nat (length history') = 2)
  /\ (writable (File Missing true) = true ->
      content (add_all 2 [build 0] (File Missing true) calls).2
      = Stored (JList (CompilationHistory.to_json <$> history'))).
Proof.
  intros calls history'.
  apply (history_add_cap 2 [build 0] (File Missing true) calls); [lia|discriminate].
Defined.

(** *** RecentFiles *)

Lemma list_contains_In (x : string) (l : list string) :
  list_contains x l = true <-> In x l.
Proof.
  unfold list_contains. rewrite existsb_exists. split.
  - intros (y & Hy & E). apply String.eqb_eq in E. now subst.
  - intros H. exists x. split; [exact H|apply String.eqb_refl].
Qed.

Lemma list_remove_perm (x : string) (l : list string) :
  In x l -> x :: list_remove x l ≡ₚ l.
Proof.
  induction l as [|y l IH]; cbn; [tauto|].
  destruct (String.eqb_spec x y) as [->|Hne]; [reflexivity|].
  intros [E|H]; [congruence|].
  rewrite Permutation_swap. now rewrite IH.
Qed.

Lemma take_cons_front {A} (n : nat) (x : A) (l : list A) :
  (1 <= n)%nat -> exists rest, take n (x :: l) = x :: rest.
Proof. destruct n; [lia|]. intros _. cbn. eauto. Qed.

Lemma recent_add_aba (max_items : Z) (f : file) (a b : string) :
  a <> b -> 2 <= max_items ->
  (RecentFiles.add max_items
     (RecentFiles.add max_items (RecentFiles.add max_items [] f a).1 f b).1 f a).1
  = [a; b].
Proof.
  intros Hab H2.
  assert (Hn : exists k, Z.to_nat max_items = S (S k))
    by (exists (Z.to_nat (max_items - 2)); lia).
  destruct Hn as [k Hk].
  assert (E1 : (RecentFiles.add max_items [] f a).1 = [a]).
  { unfold RecentFiles.add. cbn [fst list_contains existsb].
    rewrite slice_to_nonneg, Hk by lia. reflexivity. }
  rewrite E1.
  assert (E2 : (RecentFiles.add max_items [a] f b).1 = [b; a]).
  { unfold RecentFiles.add. cbn [fst list_contains existsb].
    destruct (String.eqb_spec b a) as [->|_]; [congruence|].
    cbn [orb]. rewrite slice_to_nonneg, Hk by lia. apply take_ge. cbn. lia. }
  rewrite E2.
  unfold RecentFiles.add. cbn [fst list_contains existsb list_remove].
  destruct (String.eqb_spec a b) as [->|_]; [congruence|].
  rewrite String.eqb_refl. cbn [orb].
  rewrite slice_to_nonneg, Hk by lia. apply take_ge. cbn. lia.
Qed.

(** C9. When the cap is at least 1, [add] of a path already in the list
    puts it at the front; the result is the list with the first
    occurrence of the path taken out, the path put in front, cut at the
    cap.  No copy is added: the list does not grow, a list without
    repetition stays without repetition, and when the list fits the cap
    the result is a rearrangement of it.  The length never exceeds the
    cap.  Adding A, then B, then A again to an empty list gives
    [A; B]. *)
Theorem recent_add_moves_to_front (max_items : Z) (files : list string) (f : file)
    (p : string) :
  1 <= max_items -> In p files ->
  let files' := (RecentFiles.add max_items files f p).1 in
  files' = take (Z.to_nat max_items) (p :: list_remove p files)
  /\ (exists rest, files' = p :: rest)
  /\ (length files' <= length files)%nat
  /\ Z.of_nat (length files') <= max_items
  /\ (NoDup files -> NoDup files')
  /\ (Z.of_nat (length files) <= max_items -> files' ≡ₚ files)
  /\ (forall a b, a <> b -> 2 <= max_items ->
      (RecentFiles.add max_items
         (RecentFiles.add max_items (RecentFiles.add max_items [] f a).1 f b).1 f a).1
      = [a; b]).
Proof.
  intros Hm Hin files'.
  assert (Hperm : p :: list_remove p files ≡ₚ files) by now apply list_remove_perm.
  assert (E : files' = take (Z.to_nat max_items) (p :: list_remove p files)).
  { subst files'. unfold RecentFiles.add. cbn [fst].
    rewrite (proj2 (list_contains_In p files) Hin). apply slice_to_nonneg. lia. }
  split; [exact E|]. split; [|split; [|split; [|split; [|split]]]].
  - rewrite E. apply take_cons_front. lia.
  - rewrite E, length_take, <- (Permutation_length Hperm). lia.
  - rewrite E, length_take. lia.
  - intros Hnd. rewrite E. eapply sublist_NoDup; [|apply sublist_take].
    now rewrite Hperm.
  - intros Hlen. rewrite E, take_ge; [exact Hperm|].
    rewrite (Permutation_length Hperm). lia.
  - intros a b Hab H2. now apply recent_add_aba.
Qed.

Lemma recent_add_moves_to_front_witness :
  let files' := (RecentFiles.add 10 ["b.py"; "a.py"; "c.py"] (File Missing true) "a.py").1 in
  files' = ["a.py"; "b.py"; "c.py"]
  /\ (RecentFiles.add 10
        (RecentFiles.add 10 (RecentFiles.add 10 [] (File Missing true) "A").1
           (File Missing true) "B").1 (File Missing true) "A").1
     = ["A"; "B"].
Proof.
  destruct (recent_add_moves_to_front 10 ["b.py"; "a.py"; "c.py"] (File Missing true) "a.py")
    as (E & _ & _ & _ & _ & _ & Hab); [lia|cbn; tauto|].
  split; [exact E|]. apply Hab; [discriminate|lia].
Defined.

(** *** Settings *)

Lemma load_item_lookup (s : gmap string json) (item : string * json) (k : string) :
  Settings.load_item s item !! k
  = if decide (item.1 = k) then (fun _ => item.2) <$> s !! k else s !! k.
Proof.
  unfold Settings.load_item. destruct item as [k0 v0]; cbn [fst snd].
  destruct (decide (is_Some (s !! k0))) as [[d Hd]|Hn]; destruct (decide (k0 = k)) as [->|Hne].
  - rewrite lookup_insert_eq, Hd. reflexivity.
  - now rewrite lookup_insert_ne.
  - destruct (s !! k) eqn:E; [|reflexivity]. exfalso. apply Hn. eauto.
  - reflexivity.
Qed.

(** What the loop of [load] leaves under each key, for a document
    without repeated keys. *)
Lemma load_items_lookup (items : list (string * json)) (s : gmap string json) (k : string) :
  NoDup items.*1 ->
  foldl Settings.load_item s items !! k
  = (fun d => default d (list_to_map (M := gmap string json) items !! k)) <$> s !! k.
Proof.
  revert s. induction items as [|[k0 v0] items IH]; intros s Hnd; cbn [foldl].
  - rewrite list_to_map_nil, lookup_empty. now destruct (s !! k).
  - cbn in Hnd. apply NoDup_cons in Hnd as [Hk0 Hnd].
    rewrite IH by exact Hnd. rewrite load_item_lookup, list_to_map_cons. cbn [fst snd].
    destruct (decide (k0 = k)) as [->|Hne].
    + assert (Hnone : list_to_map (M := gmap string json) items !! k = None)
        by now apply not_elem_of_list_to_map.
      rewrite lookup_insert_eq, Hnone. now destruct (s !! k).
    + now rewrite lookup_insert_ne.
Qed.

Lemma settings_reload_lookup (s : gmap string json) (f : file) :
  writable f = true ->
  exists s', Settings.init (Settings.save s f) = Return s'
             /\ forall k, s' !! k
                  = (fun d => default d (s !! k)) <$> Settings.DEFAULT_SETTINGS !! k.
Proof.
  intros Hw. unfold Settings.init, Settings.load, Settings.save, save_json, load_json.
  rewrite Hw. cbn [content]. eexists. split; [reflexivity|]. intros k.
  rewrite load_items_lookup by apply NoDup_fst_map_to_list.
  now rewrite list_to_map_to_list.
Qed.

(** The object always holds every schema key. *)
Lemma settings_set_dom (s : gmap string json) (f : file) (key : string) (value : json) :
  dom Settings.DEFAULT_SETTINGS ⊆ dom s ->
  dom Settings.DEFAULT_SETTINGS ⊆ dom (Settings.set s f key value).1.
Proof.
  intros H k Hk. cbn [Settings.set fst]. rewrite dom_insert_L.
  apply elem_of_union_r, H, Hk.
Qed.

(** C10. [set] stores a value under any key, [get] returns it in the
    same session, and the file written holds it, schema key or not.
    After the save and a reload from the same file, every
    schema key holds the value the session had for it, and every key
    outside the schema is absent: the value written with [set] comes
    back exactly when the key belongs to the default schema. *)
Theorem settings_set_reload (s : gmap string json) (f : file) (key : string) (value : json) :
  writable f = true ->
  dom Settings.DEFAULT_SETTINGS ⊆ dom s ->
  let s1 := (Settings.set s f key value).1 in
  let f1 := (Settings.set s f key value).2 in
  (forall dflt, Settings.get s1 key dflt = value)
  /\ (exists items, content f1 = Stored (JObj items) /\ (key, value) ∈ items)
  /\ exists s2,
       Settings.init f1 = Return s2
       /\ (forall k, k ∈ dom Settings.DEFAULT_SETTINGS -> s2 !! k = s1 !! k)
       /\ (forall k, k ∉ dom Settings.DEFAULT_SETTINGS -> s2 !! k = None)
       /\ (s2 !! key = Some value <-> key ∈ dom Settings.DEFAULT_SETTINGS).
Proof.
  intros Hw Hdom s1 f1.
  assert (Hdom1 : dom Settings.DEFAULT_SETTINGS ⊆ dom s1)
    by now apply settings_set_dom.
  assert (Hkey : s1 !! key = Some value) by apply lookup_insert_eq.
  split.
  { intros dflt. unfold Settings.get. now rewrite Hkey. }
  split.
  { exists (map_to_list s1). split.
    - subst f1. cbn [Settings.set snd]. unfold Settings.save, save_json.
      now rewrite Hw.
    - now apply elem_of_map_to_list. }
  destruct (settings_reload_lookup s1 f Hw) as (s2 & Hinit & L).
  exists s2. split; [exact Hinit|].
  assert (Hin : forall k, k ∈ dom Settings.DEFAULT_SETTINGS -> s2 !! k = s1 !! k).
  { intros k Hk. rewrite L.
    pose proof Hk as [d Hd]%elem_of_dom. rewrite Hd.
    apply Hdom1, elem_of_dom in Hk as [v Hv]. now rewrite Hv. }
  assert (Hout : forall k, k ∉ dom Settings.DEFAULT_SETTINGS -> s2 !! k = None).
  { intros k Hk. rewrite L. apply not_elem_of_dom in Hk. now rewrite Hk. }
  split; [exact Hin|]. split; [exact Hout|].
  split.
  - intros Hs2. destruct (decide (key ∈ dom Settings.DEFAULT_SETTINGS)) as [|Hn];
      [assumption|]. rewrite (Hout key Hn) in Hs2. discriminate.
  - intros Hk. now rewrite Hin.
Qed.

Lemma settings_set_reload_witness :
  let s := Settings.DEFAULT_SETTINGS in
  let f := File Missing true in
  let s1 := (Settings.set s f "theme" (JStr "Light")).1 in
  let f1 := (Settings.set s f "theme" (JStr "Light")).2 in
  (forall dflt, Settings.get s1 "theme" dflt = JStr "Light")
  /\ (exists items, content f1 = Stored (JObj items) /\ ("theme", JStr "Light") ∈ items)
  /\ exists s2,
       Settings.init f1 = Return s2
       /\ (forall k, k ∈ dom Settings.DEFAULT_SETTINGS -> s2 !! k = s1 !! k)
       /\ (forall k, k ∉ dom Settings.DEFAULT_SETTINGS -> s2 !! k = None)
       /\ (s2 !! "theme" = Some (JStr "Light") <-> "theme" ∈ dom Settings.DEFAULT_SETTINGS).
Proof.
  exact (settings_set_reload Settings.DEFAULT_SETTINGS (File Missing true) "theme"
           (JStr "Light") eq_refl (reflexivity _)).
Defined.

(** ** Size estimation

    Facts about binary64 rounding, used to show that the float
    computations of [estimate_output_size] and [format_size] stay
    finite for every file size the operating system can report. *)

Section Binary64.


Lemma digits2_log2 (p : positive) : Zpos (digits2_pos p) = Z.log2 (Zpos p) + 1.
Proof.
  induction p as [p IH|p IH|]; cbn [digits2_pos]; [| |reflexivity].
  - rewrite Pos2Z.inj_succ, IH. 
    change (Zpos p~1) with (2 * Zpos p + 1). rewrite Z.log2_succ_double by lia. lia.
  - rewrite Pos2Z.inj_succ, IH.
    change (Zpos p~0) with (2 * Zpos p). rewrite Z.log2_double by lia. lia.
Qed.











Lemma fexp_normal (x : Z) : -1021 <= x -> fexp 53 1024 x = x - 53.
Proof. intros H. unfold fexp, emin. lia. Qed.

Lemma Zdigits2_log2 (m : Z) : 0 < m -> Zdigits2 m = Z.log2 m + 1.
Proof. destruct m as [|p|p]; try lia. intros _. apply digits2_log2. Qed.



Lemma iter_xO (m d : positive) : Zpos (Pos.iter xO m d) = Zpos m * 2 ^ Zpos d.
Proof.
  induction d as [|d IH] using Pos.peano_ind.
  - cbn. lia.
  - rewrite Pos.iter_succ, Pos2Z.inj_xO, IH, Pos2Z.inj_succ, Z.pow_succ_r by lia. ring.
Qed.

(** [shl_align]: the value is kept, the exponent lowered to the target. *)
Lemma shl_align_spec (m : positive) (e e' : Z) :
  let k := Z.max (e - e') 0 in
  Zpos (shl_align m e e').1 = Zpos m * 2 ^ k /\ (shl_align m e e').2 = e - k.
Proof.
  intros k. unfold shl_align.
  destruct (e' - e) as [|d|d] eqn:E; cbn [fst snd].
  - replace k with 0 by lia. cbn. lia.
  - replace k with 0 by lia. cbn. lia.
  - rewrite iter_xO. replace k with (Zpos d) by lia. lia.
Qed.



Lemma log2_lt_bound (n b : Z) : 0 < n -> n < 2 ^ b -> Z.log2 n < b.
Proof. intros Hn Hb. now apply Z.log2_lt_pow2. Qed.

















End Binary64.




(** * Further properties of the dispatch layer *)

Section MoreDispatch.
Variable o : oracle.
Variables (source output : string) (icon : option string).
Variables (admin console single_file : bool) (meta : Compiler.metadata).

Abbreviation compile' ft :=
  (Compiler.compile o source output ft icon admin console single_file meta).

Lemma first_existing_find (paths : list string) (h : host) :
  first_existing paths h = (Return (List.find (exists_in h) paths), h).
Proof.
  induction paths as [|p ps IH]; cbn; [reflexivity|].
  unfold bind, path_exists. destruct (exists_in h p); [reflexivity|apply IH].
Qed.

Lemma compile_cs_shape (h : host) :
  answers_or_spawns o None (Compiler.compile_cs o source output) h.
Proof.
  unfold answers_or_spawns, Compiler.compile_cs.
  rewrite (bind_Return _ _ _ _ _ (first_existing_find _ h)).
  destruct (List.find _ _) as [p|]; [|left; eauto].
  destruct (truthy (Some p)); [right|left]; eauto.
Qed.

Lemma compile_ahk_shape (h : host) :
  answers_or_spawns o None (Compiler.compile_ahk o source output icon) h.
Proof.
  unfold answers_or_spawns, Compiler.compile_ahk.
  rewrite (bind_Return _ _ _ _ _ (first_existing_find _ h)).
  destruct (List.find _ _) as [p|]; [|left; eauto].
  destruct (truthy (Some p)); [|left; eauto].
  rewrite (bind_Return _ _ _ _ _ (icon_present_eq icon h)). right. eauto.
Qed.

Lemma compile_go_shape (h : host) :
  answers_or_spawns o (Some (os_dirname o source)) (Compiler.compile_go o source output) h.
Proof.
  unfold answers_or_spawns, Compiler.compile_go, bind, path_exists, ret.
  destruct (truthy (which o "go")) eqn:Hw.
  - rewrite Hw. destruct (which o "go"); [right|left]; eauto.
  - destruct (exists_in h (Compiler.go_path o)).
    + destruct (truthy (Some (Compiler.go_path o))); [right|left]; eauto.
    + rewrite Hw. destruct (which o "go"); left; eauto.
Qed.

Lemma compile_shape (file_type : string) (h : host) :
  ~ In file_type ["bat"; "cmd"; "vbs"] ->
  answers_or_spawns o (working_directory o source file_type) (compile' file_type) h.
Proof.
  intros Hn. unfold Compiler.compile, Compiler.compilers, working_directory.
  cbn [dict_get].
  repeat match goal with
  | |- context [String.eqb ?k file_type] =>
      destruct (String.eqb_spec k file_type) as [E|_];
      [ first [ exfalso; apply Hn; rewrite <- E; cbn; tauto
              | rewrite <- E; clear E ]
      | ]
  end.
  all: try (right; eexists; reflexivity).
  - destruct (compile_ps1_spawns o source output icon admin console meta h) as [cmd E].
    right. eauto.
  - right. rewrite compile_py_eq. eauto.
  - apply compile_ahk_shape.
  - apply compile_cs_shape.
  - apply compile_go_shape.
  - left. destruct (String.eqb file_type "go"); eexists; reflexivity.
Qed.


Lemma compile_batch_types (file_type : string) :
  In file_type ["bat"; "cmd"; "vbs"] ->
  compile' file_type = Compiler.compile_batch o source output.
Proof. cbn. intros [<-|[<-|[<-|[]]]]; reflexivity. Qed.

(** X2. One call of [compile] starts at most one process, whatever the
    file type and the host: the spawn trace is unchanged or grows by
    exactly one attempt. *)
Theorem compile_spawns_at_most_once (file_type : string) (h : host) :
  spawned (snd (compile' file_type h)) = spawned h
  \/ exists cmd cwd, spawned (snd (compile' file_type h)) = spawned h ++ [(cmd, cwd)].
Proof.
  destruct (in_dec string_dec file_type ["bat"; "cmd"; "vbs"]) as [Hb|Hn].
  - rewrite (compile_batch_types file_type Hb).
    destruct (compile_batch_spawned o source output h)
      as [(_ & _ & cmd & E)|(_ & _ & E)]; [right; eauto|left; exact E].
  - destruct (compile_shape file_type h Hn) as [[msg E]|(cmd & E)]; rewrite E.
    + left. reflexivity.
    + right. rewrite run_command_eq. eauto.
Qed.

(** X3. [compile_go] resolves the tool in a fixed order: a non-empty
    answer of [which("go")] is used even when the fallback location
    exists; otherwise the fallback under LOCALAPPDATA is used when it
    exists.  In both cases the command is [<go> build -o <output>
    <source>], run in the directory of the source. *)
Theorem compile_go_resolution (h : host) :
  (forall p, which o "go" = Some p -> p <> "" ->
     compile' "go" h
     = run_command o [p; "build"; "-o"; output; source] (Some (os_dirname o source)) h)
  /\ (truthy (which o "go") = false -> exists_in h (Compiler.go_path o) = true ->
      compile' "go" h
      = run_command o [Compiler.go_path o; "build"; "-o"; output; source]
                      (Some (os_dirname o source)) h).
Proof.
  rewrite (compile_lookup o source output icon admin console single_file meta "go" _ eq_refl).
  unfold Compiler.compile_go, bind, path_exists, ret. split.
  - intros p Hp Hne. rewrite Hp.
    assert (Ht : truthy (Some p) = true) by (destruct p; [congruence|reflexivity]).
    now rewrite Ht, Ht.
  - intros Hw Hex. rewrite Hw, Hex.
    assert (Ht : truthy (Some (Compiler.go_path o)) = true).
    { destruct (Compiler.go_path o); [discriminate Hex|reflexivity]. }
    now rewrite Ht.
Qed.

(** X4. [compile_cs] takes the first compiler that exists: the 64-bit
    framework's [csc.exe] when it exists, whether or not the 32-bit one
    does, and the 32-bit one only when the 64-bit one is absent.  The
    command is [<csc> /out:<output> <source>]. *)
Theorem compile_cs_resolution (h : host) :
  let windir := environ_get o "WINDIR" Compiler.default_windir in
  let csc64 := join5 o windir "Microsoft.NET" "Framework64" "v4.0.30319" "csc.exe" in
  let csc32 := join5 o windir "Microsoft.NET" "Framework" "v4.0.30319" "csc.exe" in
  (exists_in h csc64 = true ->
     compile' "cs" h = run_command o [csc64; "/out:" +:+ output; source] None h)
  /\ (exists_in h csc64 = false -> exists_in h csc32 = true ->
      compile' "cs" h = run_command o [csc32; "/out:" +:+ output; source] None h).
Proof.
  intros windir csc64 csc32.
  rewrite (compile_lookup o source output icon admin console single_file meta "cs" _ eq_refl).
  unfold Compiler.compile_cs.
  rewrite (bind_Return _ _ _ _ _ (first_existing_find _ h)).
  unfold Compiler.csc_paths. fold windir. fold csc64. fold csc32. cbn [List.find].
  split.
  - intros H. rewrite H. destruct csc64; [discriminate H|reflexivity].
  - intros H64 H32. rewrite H64, H32. destruct csc32; [discriminate H32|reflexivity].
Qed.

(** X5. [compile_ahk] takes the v1 compiler location when it exists and
    the v2 location only otherwise; the command is [<ahk> /in <source>
    /out <output>], followed by [/icon <path>] exactly when an icon path
    is supplied and exists. *)
Theorem compile_ahk_resolution (h : host) :
  let pf := environ_get o "ProgramFiles" "" in
  let v1 := os_pathdiv o pf "AutoHotkey/Compiler/Ahk2Exe.exe" in
  let v2 := os_pathdiv o pf "AutoHotkey/v2/Compiler/Ahk2Exe.exe" in
  let icon_args := match icon with
                   | Some p => if exists_in h p then ["/icon"; p] else []
                   | None => []
                   end in
  (exists_in h v1 = true ->
     compile' "ahk" h = run_command o ([v1; "/in"; source; "/out"; output] ++ icon_args) None h)
  /\ (exists_in h v1 = false -> exists_in h v2 = true ->
      compile' "ahk" h
      = run_command o ([v2; "/in"; source; "/out"; output] ++ icon_args) None h).
Proof.
  intros pf v1 v2 icon_args.
  rewrite (compile_lookup o source output icon admin console single_file meta "ahk" _ eq_refl).
  unfold Compiler.compile_ahk.
  rewrite (bind_Return _ _ _ _ _ (first_existing_find _ h)).
  unfold Compiler.ahk_paths. fold pf. fold v1. fold v2. cbn [List.find].
  assert (Hicon : forall p : string,
            (has_icon <- icon_present icon ;;
             run_command o (if has_icon
                            then [p; "/in"; source; "/out"; output] ++ ["/icon"; default "" icon]
                            else [p; "/in"; source; "/out"; output]) None) h
            = run_command o ([p; "/in"; source; "/out"; output] ++ icon_args) None h).
  { intros p. rewrite (bind_Return _ _ _ _ _ (icon_present_eq icon h)).
    subst icon_args. destruct icon as [q|]; cbn [icon_ok default];
      [destruct (exists_in h q)|]; reflexivity. }
  split.
  - intros H. rewrite H. destruct v1; [discriminate H|]. apply Hicon.
  - intros H1 H2. rewrite H1, H2. destruct v2; [discriminate H2|]. apply Hicon.
Qed.

(** *** The dependency checker against the compile routines *)

Lemma any_exists_existsb (paths : list string) (h : host) :
  DependencyChecker.any_exists paths h = (Return (existsb (exists_in h) paths), h).
Proof.
  induction paths as [|p ps IH]; cbn; [reflexivity|].
  unfold bind, path_exists. destruct (exists_in h p); [reflexivity|apply IH].
Qed.

Lemma check_compiler_lookup (file_type : string) (m : M bool) :
  dict_get (DependencyChecker.checkers o) file_type = Some m ->
  DependencyChecker.check_compiler o file_type = m.
Proof. intros E. unfold DependencyChecker.check_compiler. now rewrite E. Qed.

(** X6. The checker and the compile routine for AutoHotkey disagree:
    the checker also accepts a compiler under ProgramFiles(x86), which
    [compile_ahk] never looks at.  When that is the only location that
    exists, [check_compiler("ahk")] answers [True] and [compile] answers
    "AutoHotkey compiler not found" without spawning.  In the other
    direction the two agree: a negative check implies that [compile]
    finds nothing. *)
Theorem check_ahk_wider_than_compile_ahk (h : host) :
  (DependencyChecker.check_compiler o "ahk" h = (Return false, h) ->
   compile' "ahk" h = (Return (false, "AutoHotkey compiler not found"), h))
  /\ (none_exists h (Compiler.ahk_paths o) = true ->
      exists_in h (os_pathdiv o (environ_get o "ProgramFiles(x86)" "")
                     "AutoHotkey/Compiler/Ahk2Exe.exe") = true ->
      DependencyChecker.check_compiler o "ahk" h = (Return true, h)
      /\ compile' "ahk" h = (Return (false, "AutoHotkey compiler not found"), h)).
Proof.
  rewrite (check_compiler_lookup "ahk" _ eq_refl).
  rewrite (compile_lookup o source output icon admin console single_file meta "ahk" _ eq_refl).
  unfold DependencyChecker.check_ahk. rewrite any_exists_existsb.
  unfold DependencyChecker.ahk_check_paths. cbn [existsb]. split.
  - intros H. apply compile_ahk_missing. unfold none_exists, Compiler.ahk_paths.
    cbn [forallb]. injection H as H.
    apply orb_false_iff in H as [H1 H]. apply orb_false_iff in H as [H2 _].
    now rewrite H1, H2.
  - intros Hnone Hx86. split; [|now apply compile_ahk_missing].
    rewrite Hx86, !orb_true_r. reflexivity.
Qed.

(** X7. For Go the checker and the compile routine agree on every host:
    [check_compiler("go")] answers [True] exactly when [compile] starts
    the Go tool, and [False] exactly when [compile] answers "Go compiler
    not found". *)
Theorem check_go_agrees_with_compile_go (h : host) :
  exists b,
    DependencyChecker.check_compiler o "go" h = (Return b, h)
    /\ (b = true <-> exists cmd cwd, compile' "go" h = run_command o cmd cwd h)
    /\ (b = false <-> compile' "go" h = (Return (false, "Go compiler not found"), h)).
Proof.
  rewrite (check_compiler_lookup "go" _ eq_refl).
  rewrite (compile_lookup o source output icon admin console single_file meta "go" _ eq_refl).
  assert (Hrun : forall cmd cwd r, run_command o cmd cwd h <> (Return r, h)).
  { intros cmd cwd r. rewrite run_command_eq. intros E. injection E as _ E.
    apply (f_equal spawned) in E. cbn in E.
    apply (f_equal (@length _)) in E. rewrite length_app in E. cbn in E. lia. }
  unfold DependencyChecker.check_go, Compiler.compile_go, bind, path_exists, ret.
  destruct (truthy (which o "go")) eqn:Hw.
  - exists true. split; [reflexivity|]. rewrite Hw.
    destruct (which o "go") as [p|]; [|discriminate Hw]. split; split.
    + eauto.
    + reflexivity.
    + discriminate.
    + intros E. exfalso. exact (Hrun _ _ _ E).
  - change (Compiler.go_path o) with
      (os_pathdiv o (environ_get o "LOCALAPPDATA" "") "Programs/Go/bin/go.exe").
    set (gp := os_pathdiv o (environ_get o "LOCALAPPDATA" "") "Programs/Go/bin/go.exe").
    destruct (exists_in h gp) eqn:Hex.
    + exists true. split; [reflexivity|].
      assert (Ht : truthy (Some gp) = true) by (destruct gp; [discriminate Hex|reflexivity]).
      rewrite Ht. split; split.
      * eauto.
      * reflexivity.
      * discriminate.
      * intros E. exfalso. exact (Hrun _ _ _ E).
    + exists false. split; [reflexivity|]. rewrite Hw.
      destruct (which o "go") as [p|]; split; split.
      all: try discriminate; try reflexivity.
      all: intros (cmd & cwd & E'); exfalso; symmetry in E'; exact (Hrun _ _ _ E').
Qed.






Lemma append_empty_r (s : string) : s +:+ "" = s.
Proof.
  induction s as [|c s IH]; [reflexivity|].
  change (String c (s +:+ "") = String c s). now rewrite IH.
Qed.

Lemma ps_option_value (m : list (string * string)) (key flag : string) :
  Compiler.ps_option m key flag
  = match Compiler.meta_field m key with
    | Some v => " -" +:+ flag +:+ " " +:+ dquote +:+ v +:+ dquote
    | None => ""
    end.
Proof. reflexivity. Qed.

(** X10. Of the metadata of a build request [compile_ps1] uses the
    non-empty values of product, version, company and copyright and
    nothing else: two requests that agree on these four give the same
    run, so a missing dict, an empty dict and a dict whose four fields
    are empty or absent are all alike, and "description" is never
    passed on. *)
Theorem compile_ps1_metadata_fields (meta1 meta2 : Compiler.metadata)
    (no_console : bool) (h : host) :
  (forall key, In key ["product"; "version"; "company"; "copyright"] ->
               meta_value meta1 key = meta_value meta2 key) ->
  Compiler.compile_ps1 o source output icon admin no_console meta1 h
  = Compiler.compile_ps1 o source output icon admin no_console meta2 h.
Proof.
  intros H.
  assert (Hp := H "product" ltac:(cbn; tauto)).
  assert (Hv := H "version" ltac:(cbn; tauto)).
  assert (Hc := H "company" ltac:(cbn; tauto)).
  assert (Hr := H "copyright" ltac:(cbn; tauto)).
  clear H. unfold Compiler.compile_ps1, bind.
  destruct (icon_present icon h) as [[has_icon|e] h1]; [|reflexivity].
  set (base := if no_console then _ else _).
  assert (Htail : forall meta : Compiler.metadata,
            match meta with
            | Some ((_ :: _) as m) =>
                base +:+ Compiler.ps_option m "product" "Title"
                     +:+ Compiler.ps_option m "version" "Version"
                     +:+ Compiler.ps_option m "company" "Company"
                     +:+ Compiler.ps_option m "copyright" "Copyright"
            | _ => base
            end
            = base +:+ match meta_value meta "product" with
                       | Some v => " -Title " +:+ dquote +:+ v +:+ dquote
                       | None => ""
                       end
                   +:+ match meta_value meta "version" with
                       | Some v => " -Version " +:+ dquote +:+ v +:+ dquote
                       | None => ""
                       end
                   +:+ match meta_value meta "company" with
                       | Some v => " -Company " +:+ dquote +:+ v +:+ dquote
                       | None => ""
                       end
                   +:+ match meta_value meta "copyright" with
                       | Some v => " -Copyright " +:+ dquote +:+ v +:+ dquote
                       | None => ""
                       end).
  { intros [[|x m]|]; cbn [meta_value].
    - change (base = base +:+ ""). now rewrite append_empty_r.
    - rewrite !ps_option_value.
      destruct (Compiler.meta_field (x :: m) "product"),
               (Compiler.meta_field (x :: m) "version"),
               (Compiler.meta_field (x :: m) "company"),
               (Compiler.meta_field (x :: m) "copyright"); reflexivity.
    - change (base = base +:+ ""). now rewrite append_empty_r. }
  rewrite (Htail meta1), (Htail meta2), Hp, Hv, Hc, Hr. reflexivity.
Qed.

(** *** The batch workspace, continued *)

Ltac batch_cases :=
  unfold Compiler.compile_batch, Compiler.compile_batch_body, try_finally, bind,
    mkdtemp, shutil_copy, write_text, shutil_rmtree_ignore_errors;
  repeat (rewrite run_command_eq || cbn [fst snd fs spawned written rmtrees after_spawn]
          || match goal with
             | |- context [match ?x with _ => _ end] =>
                 lazymatch x with
                 | os_mkdtemp_fault _ => destruct x eqn:?
                 | os_copy_fault _ _ _ => destruct x eqn:?
                 | os_write_fault _ _ => destruct x eqn:?
                 | exists_in _ _ => destruct x eqn:?
                 | os_rmtree_ok _ _ => destruct x eqn:?
                 end
             | |- context [if ?x then _ else _] =>
                 lazymatch x with
                 | exists_in _ _ => destruct x eqn:?
                 | os_rmtree_ok _ _ => destruct x eqn:?
                 end
             end).


(** X12. Whenever [compile_batch] returns a result, it has written one
    directive file, [config.sed] in the workspace, with the text of
    [sed_content], and it has started the packager exactly once,
    non-interactively ([/N /Q]), on that same file; the result is what
    [run_command] makes of that process. *)
Theorem compile_batch_runs_directive (h : host) (r : bool * string) :
  fst (Compiler.compile_batch o source output h) = Return r ->
  let d := fresh (fs h) in
  let sed := os_join o d "config.sed" in
  let iexpress :=
    join3 o (environ_get o "WINDIR" Compiler.default_windir) "System32" "iexpress.exe" in
  written (snd (Compiler.compile_batch o source output h))
    = written h ++ [(sed, Compiler.sed_content output (os_basename o source) d)]
  /\ spawned (snd (Compiler.compile_batch o source output h))
     = spawned h ++ [([iexpress; "/N"; "/Q"; sed], None)]
  /\ r = match os_run o [iexpress; "/N"; "/Q"; sed] None with
         | Ran p => (returncode p =? 0, stdout p +:+ stderr p)
         | SpawnError e => (false, exc_str e)
         end.
Proof.
  intros Hr d sed iexpress. revert Hr.
  batch_cases; intros Hr; try discriminate Hr; injection Hr as <-; repeat split.
Qed.

(** X23. [compile] never reports success on its own: whatever the file
    type and the host, a result [(True, text)] means that exactly one
    process was started, that it ran and exited with status 0, and that
    the text is its standard output followed by its standard error. *)
Theorem compile_success_means_exit_zero (file_type : string) (h : host) (text : string) :
  fst (compile' file_type h) = Return (true, text) ->
  exists cmd cwd p,
    spawned (snd (compile' file_type h)) = spawned h ++ [(cmd, cwd)]
    /\ os_run o cmd cwd = Ran p
    /\ returncode p = 0
    /\ text = stdout p +:+ stderr p.
Proof.
  assert (Hrun : forall cmd cwd h',
            fst (run_command o cmd cwd h') = Return (true, text) ->
            exists p, os_run o cmd cwd = Ran p /\ returncode p = 0
                      /\ text = stdout p +:+ stderr p).
  { intros cmd cwd h'. rewrite run_command_eq. cbn [fst].
    destruct (os_run o cmd cwd) as [p|e]; intros E; injection E as E1 E2; [|discriminate].
    exists p. apply Z.eqb_eq in E1. auto. }
  destruct (in_dec string_dec file_type ["bat"; "cmd"; "vbs"]) as [Hb|Hn].
  - rewrite (compile_batch_types file_type Hb). intros Hr.
    destruct (compile_batch_runs_directive h _ Hr) as (_ & Hs & Hres).
    eexists _, _. destruct (os_run o _ None) as [p|e] eqn:E;
      injection Hres as H1 H2; [|discriminate].
    exists p. symmetry in H1. apply Z.eqb_eq in H1. rewrite E. auto.
  - destruct (compile_shape file_type h Hn) as [[msg E]|(cmd & E)]; rewrite E.
    + discriminate.
    + intros Hr. destruct (Hrun _ _ _ Hr) as (p & Hp).
      exists cmd, (working_directory o source file_type), p.
      rewrite run_command_eq. split; [reflexivity|exact Hp].
Qed.

(** X24. Only the Go build runs somewhere else: for Go the process is
    started in the directory of the source file, for every other file
    type (the batch path included) in the caller's working directory. *)
Theorem compile_working_directory (file_type : string) (h : host)
    (cmd : list string) (cwd : option string) :
  spawned (snd (compile' file_type h)) = spawned h ++ [(cmd, cwd)] ->
  cwd = if String.eqb file_type "go" then Some (os_dirname o source) else None.
Proof.
  assert (Hlast : forall c1 c2 d1 d2,
            spawned h ++ [(c1, d1)] = spawned h ++ [(c2, d2)] -> d1 = d2).
  { intros c1 c2 d1 d2 E. apply app_inv_head in E. congruence. }
  assert (Hnone : forall c d, spawned h <> spawned h ++ [(c, d)]).
  { intros c d E. apply (f_equal (@length _)) in E. rewrite length_app in E. cbn in E. lia. }
  destruct (in_dec string_dec file_type ["bat"; "cmd"; "vbs"]) as [Hb|Hn].
  - rewrite (compile_batch_types file_type Hb).
    assert (Hgo : String.eqb file_type "go" = false).
    { cbn in Hb. destruct Hb as [<-|[<-|[<-|[]]]]; reflexivity. }
    rewrite Hgo.
    destruct (compile_batch_spawned o source output h) as [(r & Hr & _)|(e & _ & Hs)].
    + destruct (compile_batch_runs_directive h r Hr) as (_ & Hs & _).
      rewrite Hs. intros E. symmetry. exact (Hlast _ _ _ _ E).
    + rewrite Hs. intros E. exfalso. exact (Hnone _ _ E).
  - fold (working_directory o source file_type).
    destruct (compile_shape file_type h Hn) as [[msg E]|(c & E)]; rewrite E.
    + cbn [snd]. intros E'. exfalso. exact (Hnone _ _ E').
    + rewrite run_command_eq. cbn [snd after_spawn spawned]. intros E'.
      symmetry. exact (Hlast _ _ _ _ E').
Qed.

End MoreDispatch.

(** Concrete runs of the statements above. *)


Lemma compile_go_resolution_witness :
  let src := "C:" +:+ backslash +:+ "w" +:+ backslash +:+ "main.go" in
  let fallback := Compiler.go_path (windows "ok") in
  Compiler.compile (windows_with_go "ok") src "main.exe" "go" None false false true None
    (Sample.host_with [fallback])
  = run_command (windows_with_go "ok")
      ["C:" +:+ backslash +:+ "Go" +:+ backslash +:+ "bin" +:+ backslash +:+ "go.exe";
       "build"; "-o"; "main.exe"; src]
      (Some ("C:" +:+ backslash +:+ "w")) (Sample.host_with [fallback])
  /\ Compiler.compile (windows "ok") src "main.exe" "go" None false false true None
       (Sample.host_with [fallback])
     = run_command (windows "ok") [fallback; "build"; "-o"; "main.exe"; src]
         (Some ("C:" +:+ backslash +:+ "w")) (Sample.host_with [fallback]).
Proof.
  intros src fallback. split.
  - destruct (compile_go_resolution (windows_with_go "ok") src "main.exe" None false false
                true None (Sample.host_with [fallback])) as [H _].
    apply (H _ eq_refl). discriminate.
  - destruct (compile_go_resolution (windows "ok") src "main.exe" None false false
                true None (Sample.host_with [fallback])) as [_ H].
    apply H; vm_compute; reflexivity.
Defined.

Lemma compile_cs_resolution_witness :
  let o := windows "ok" in
  let windir := environ_get o "WINDIR" Compiler.default_windir in
  let csc64 := join5 o windir "Microsoft.NET" "Framework64" "v4.0.30319" "csc.exe" in
  let csc32 := join5 o windir "Microsoft.NET" "Framework" "v4.0.30319" "csc.exe" in
  Compiler.compile o "a.cs" "a.exe" "cs" None false false true None
    (Sample.host_with [csc32; csc64])
  = run_command o [csc64; "/out:a.exe"; "a.cs"] None (Sample.host_with [csc32; csc64])
  /\ Compiler.compile o "a.cs" "a.exe" "cs" None false false true None
       (Sample.host_with [csc32])
     = run_command o [csc32; "/out:a.exe"; "a.cs"] None (Sample.host_with [csc32]).
Proof.
  intros o windir csc64 csc32. split.
  - destruct (compile_cs_resolution o "a.cs" "a.exe" None false false true None
                (Sample.host_with [csc32; csc64])) as [H _].
    apply H. vm_compute. reflexivity.
  - destruct (compile_cs_resolution o "a.cs" "a.exe" None false false true None
                (Sample.host_with [csc32])) as [_ H].
    apply H; vm_compute; reflexivity.
Defined.

Lemma compile_ahk_resolution_witness :
  let o := windows "ok" in
  let pf := environ_get o "ProgramFiles" "" in
  let v1 := os_pathdiv o pf "AutoHotkey/Compiler/Ahk2Exe.exe" in
  let v2 := os_pathdiv o pf "AutoHotkey/v2/Compiler/Ahk2Exe.exe" in
  Compiler.compile o "a.ahk" "a.exe" "ahk" (Some "a.ico") false false true None
    (Sample.host_with [v1; v2; "a.ico"])
  = run_command o [v1; "/in"; "a.ahk"; "/out"; "a.exe"; "/icon"; "a.ico"] None
      (Sample.host_with [v1; v2; "a.ico"])
  /\ Compiler.compile o "a.ahk" "a.exe" "ahk" (Some "a.ico") false false true None
       (Sample.host_with [v2])
     = run_command o [v2; "/in"; "a.ahk"; "/out"; "a.exe"] None (Sample.host_with [v2]).
Proof.
  intros o pf v1 v2. split.
  - destruct (compile_ahk_resolution o "a.ahk" "a.exe" (Some "a.ico") false false true None
                (Sample.host_with [v1; v2; "a.ico"])) as [H _].
    rewrite H by (vm_compute; reflexivity). reflexivity.
  - destruct (compile_ahk_resolution o "a.ahk" "a.exe" (Some "a.ico") false false true None
                (Sample.host_with [v2])) as [_ H].
    rewrite H by (vm_compute; reflexivity). reflexivity.
Defined.

Lemma check_ahk_wider_than_compile_ahk_witness :
  let o := windows "ok" in
  let x86 := os_pathdiv o (environ_get o "ProgramFiles(x86)" "")
               "AutoHotkey/Compiler/Ahk2Exe.exe" in
  let h := Sample.host_with [x86] in
  DependencyChecker.check_compiler o "ahk" h = (Return true, h)
  /\ Compiler.compile o "a.ahk" "a.exe" "ahk" None false false true None h
     = (Return (false, "AutoHotkey compiler not found"), h).
Proof.
  intros o x86 h.
  destruct (check_ahk_wider_than_compile_ahk o "a.ahk" "a.exe" None false false true None h)
    as [_ H].
  apply H; vm_compute; reflexivity.
Defined.


Lemma compile_ps1_metadata_fields_witness :
  Compiler.compile_ps1 Sample.bare "a.ps1" "a.exe" None false true
    (Some [("product", ""); ("description", "a tool")]) Sample.empty_host
  = Compiler.compile_ps1 Sample.bare "a.ps1" "a.exe" None false true None Sample.empty_host.
Proof.
  apply (compile_ps1_metadata_fields Sample.bare "a.ps1" "a.exe" None false).
  intros key Hkey. cbn in Hkey.
  repeat (destruct Hkey as [<-|Hkey]; [reflexivity|]). destruct Hkey.
Defined.





Lemma compile_batch_runs_directive_witness :
  let o := windows "packed" in
  let h := Sample.host_with ["hello.bat"] in
  let d := fresh (fs h) in
  let sed := os_join o d "config.sed" in
  let iexpress :=
    join3 o (environ_get o "WINDIR" Compiler.default_windir) "System32" "iexpress.exe" in
  written (snd (Compiler.compile_batch o "hello.bat" "hello.exe" h))
    = written h ++ [(sed, Compiler.sed_content "hello.exe" (os_basename o "hello.bat") d)]
  /\ spawned (snd (Compiler.compile_batch o "hello.bat" "hello.exe" h))
     = spawned h ++ [([iexpress; "/N"; "/Q"; sed], None)]
  /\ (true, "packed") = match os_run o [iexpress; "/N"; "/Q"; sed] None with
                        | Ran p => (returncode p =? 0, stdout p +:+ stderr p)
                        | SpawnError e => (false, exc_str e)
                        end.
Proof.
  intros o h.
  apply (compile_batch_runs_directive o "hello.bat" "hello.exe" h (true, "packed")).
  vm_compute. reflexivity.
Defined.


(** * Further properties of the persistence stores *)

(** ** Settings *)

Lemma load_item_dom (s : gmap string json) (item : string * json) :
  dom (Settings.load_item s item) = dom s.
Proof.
  unfold Settings.load_item. destruct (decide (is_Some (s !! item.1))) as [Hs|]; [|reflexivity].
  rewrite dom_insert_L. apply elem_of_dom in Hs.
  apply set_eq. intros k. rewrite elem_of_union, elem_of_singleton.
  split; [intros [->|]; assumption|tauto].
Qed.

Lemma load_items_dom (items : list (string * json)) (s : gmap string json) :
  dom (foldl Settings.load_item s items) = dom s.
Proof.
  revert s. induction items as [|item items IH]; intros s; [reflexivity|].
  cbn [foldl]. rewrite IH. apply load_item_dom.
Qed.

(** The value the loop of [load] leaves under a key: the last one the
    document gives for it, if the key is already known. *)
Lemma load_items_last (items : list (string * json)) (s : gmap string json) (k : string) :
  foldl Settings.load_item s items !! k
  = (fun d => default d (list_to_map (M := gmap string json) (reverse items) !! k))
      <$> s !! k.
Proof.
  induction items as [|[k0 v0] items IH] using rev_ind.
  - cbn. rewrite lookup_empty. now destruct (s !! k).
  - rewrite foldl_app, reverse_snoc, list_to_map_cons. cbn [foldl fst snd].
    rewrite load_item_lookup, IH. cbn [fst snd].
    destruct (decide (k0 = k)) as [->|Hne].
    + rewrite lookup_insert_eq. now destruct (s !! k).
    + now rewrite lookup_insert_ne.
Qed.

(** X13. Loading settings never changes the set of keys: whatever JSON
    object the file holds, the loaded settings have exactly the keys of
    the default schema.  A schema key takes the last value the file
    gives for it, of whatever JSON type, and its default when the file
    does not mention it; keys the file adds are ignored.  A missing or
    unreadable file gives the defaults. *)
Theorem settings_init_schema (items : list (string * json)) (w : bool) :
  Settings.init (File Missing w) = Return Settings.DEFAULT_SETTINGS
  /\ Settings.init (File Corrupt w) = Return Settings.DEFAULT_SETTINGS
  /\ exists s,
       Settings.init (File (Stored (JObj items)) w) = Return s
       /\ dom s = dom Settings.DEFAULT_SETTINGS
       /\ forall k, s !! k
                    = (fun d => default d (list_to_map (M := gmap string json)
                                             (reverse items) !! k))
                        <$> Settings.DEFAULT_SETTINGS !! k.
Proof.
  split; [reflexivity|]. split; [reflexivity|].
  eexists. split; [reflexivity|]. split.
  - apply load_items_dom.
  - intros k. apply load_items_last.
Qed.

(** ** BuildProfiles *)

Lemma dict_get_set {V} (k k' : string) (v : V) (d : list (string * V)) :
  dict_get (dict_set k v d) k' = if String.eqb k k' then Some v else dict_get d k'.
Proof.
  induction d as [|[k0 v0] d IH]; cbn [dict_set dict_get].
  - reflexivity.
  - destruct (String.eqb_spec k0 k) as [->|Hne]; cbn [dict_get].
    + destruct (String.eqb_spec k k'); reflexivity.
    + rewrite IH. destruct (String.eqb_spec k0 k') as [->|]; [|reflexivity].
      destruct (String.eqb_spec k k'); [congruence|reflexivity].
Qed.

Lemma dict_set_keys {V} (k : string) (v : V) (d : list (string * V)) :
  (dict_set k v d).*1 = d.*1 ++ (if decide (k ∈ d.*1) then [] else [k]).
Proof.
  induction d as [|[k0 v0] d IH]; cbn [dict_set].
  - cbn. destruct (decide (k ∈ [])) as [H|]; [inversion H|reflexivity].
  - destruct (String.eqb_spec k0 k) as [->|Hne].
    + cbn. destruct (decide (k ∈ k :: d.*1)) as [|Hn]; [now rewrite app_nil_r|].
      exfalso. apply Hn. left.
    + cbn. rewrite IH. f_equal.
      destruct (decide (k ∈ d.*1)) as [Hin|Hnin],
               (decide (k ∈ k0 :: d.*1)) as [Hin'|Hnin']; try reflexivity.
      * exfalso. apply Hnin'. now right.
      * exfalso. apply elem_of_cons in Hin' as [->|]; [congruence|contradiction].
Qed.

Lemma dict_set_NoDup {V} (k : string) (v : V) (d : list (string * V)) :
  NoDup d.*1 -> NoDup (dict_set k v d).*1.
Proof.
  intros Hnd. rewrite dict_set_keys.
  destruct (decide (k ∈ d.*1)) as [|Hn]; [now rewrite app_nil_r|].
  apply NoDup_app. split; [exact Hnd|]. split; [|apply NoDup_singleton].
  intros x Hx Hk. apply list_elem_of_singleton in Hk as ->. contradiction.
Qed.

Lemma load_profiles_keys (items d : list (string * json)) :
  exists extra,
    (foldl BuildProfiles.load_item d items).*1 = d.*1 ++ extra
    /\ (NoDup d.*1 -> NoDup (foldl BuildProfiles.load_item d items).*1).
Proof.
  revert d. induction items as [|[k v] items IH]; intros d; cbn [foldl].
  - exists []. now rewrite app_nil_r.
  - destruct (IH (BuildProfiles.load_item d (k, v))) as (extra & E & Hnd).
    assert (Hk : (BuildProfiles.load_item d (k, v)).*1
                 = d.*1 ++ (if decide (k ∈ d.*1) then [] else [k]))
      by apply dict_set_keys.
    rewrite Hk in E. eexists. split; [rewrite E, <- app_assoc; reflexivity|].
    intros H. apply Hnd. unfold BuildProfiles.load_item. now apply dict_set_NoDup.
Qed.

Lemma load_profiles_get_old (items d : list (string * json)) (k : string) :
  is_Some (dict_get d k) -> is_Some (dict_get (foldl BuildProfiles.load_item d items) k).
Proof.
  revert d. induction items as [|[k0 v0] items IH]; intros d Hd; cbn [foldl]; [exact Hd|].
  apply IH. unfold BuildProfiles.load_item. cbn [fst snd]. rewrite dict_get_set.
  destruct (String.eqb k0 k); [eauto|exact Hd].
Qed.

(** X14. Whatever JSON object the profiles file holds, the four
    built-in profiles exist after loading, [names()] lists them first
    and in their fixed order, user profiles follow, and no name is
    listed twice.  A missing or unreadable file gives the built-in
    table. *)
Theorem profiles_init_builtins (items : list (string * json)) (w : bool) :
  BuildProfiles.init (File Missing w) = Return BuildProfiles.DEFAULT_PROFILES
  /\ BuildProfiles.init (File Corrupt w) = Return BuildProfiles.DEFAULT_PROFILES
  /\ exists profiles extra,
       BuildProfiles.init (File (Stored (JObj items)) w) = Return profiles
       /\ BuildProfiles.names profiles
          = ["Default"; "Console App"; "Admin Tool"; "GUI Application"] ++ extra
       /\ NoDup (BuildProfiles.names profiles)
       /\ forall name, In name ["Default"; "Console App"; "Admin Tool"; "GUI Application"] ->
                       is_Some (BuildProfiles.get profiles name).
Proof.
  split; [reflexivity|]. split; [reflexivity|].
  destruct (load_profiles_keys items BuildProfiles.DEFAULT_PROFILES) as (extra & E & Hnd).
  exists (foldl BuildProfiles.load_item BuildProfiles.DEFAULT_PROFILES items), extra.
  split; [reflexivity|]. split; [exact E|]. split.
  - apply Hnd.
    exact (bool_decide_unpack
             (NoDup ["Default"; "Console App"; "Admin Tool"; "GUI Application"]) I).
  - intros name Hname. apply load_profiles_get_old. cbn in Hname.
    repeat (destruct Hname as [<-|Hname]; [cbn; eauto|]). destruct Hname.
Qed.



Lemma load_profiles_get (items d : list (string * json)) (k : string) :
  NoDup items.*1 ->
  dict_get (foldl BuildProfiles.load_item d items) k
  = match dict_get items k with
    | Some v => Some v
    | None => dict_get d k
    end.
Proof.
  revert d. induction items as [|[k0 v0] items IH]; intros d Hnd; cbn [foldl]; [reflexivity|].
  cbn in Hnd. apply NoDup_cons in Hnd as [Hk0 Hnd].
  rewrite IH by exact Hnd. unfold BuildProfiles.load_item. cbn [fst snd dict_get].
  rewrite dict_get_set. destruct (String.eqb_spec k0 k) as [->|Hne]; [|reflexivity].
  destruct (dict_get items k) as [v|] eqn:E; [|reflexivity].
  exfalso. apply Hk0. clear -E. induction items as [|[k1 v1] items IH]; [discriminate|].
  cbn in E |- *. destruct (String.eqb_spec k1 k) as [->|]; [left|right; now apply IH].
Qed.

(** X16. Unlike settings, profiles round-trip under any name: after
    [set(name, profile)] on a writable file and a reload, [get(name)]
    is that profile, whether the name is built-in or new; every other
    name gives what the session had for it, or the built-in profile if
    the session had none. *)
Theorem profiles_set_reload (profiles : list (string * json)) (f : file)
    (name : string) (p : json) :
  writable f = true -> NoDup (BuildProfiles.names profiles) ->
  let profiles1 := (BuildProfiles.set profiles f name p).1 in
  let f1 := (BuildProfiles.set profiles f name p).2 in
  BuildProfiles.get profiles1 name = Some p
  /\ exists profiles2,
       BuildProfiles.init f1 = Return profiles2
       /\ BuildProfiles.get profiles2 name = Some p
       /\ forall other,
            BuildProfiles.get profiles2 other
            = match BuildProfiles.get profiles1 other with
              | Some v => Some v
              | None => BuildProfiles.get BuildProfiles.DEFAULT_PROFILES other
              end.
Proof.
  intros Hw Hnd profiles1 f1.
  assert (Hget : BuildProfiles.get profiles1 name = Some p).
  { unfold BuildProfiles.get. subst profiles1. cbn [BuildProfiles.set fst].
    rewrite dict_get_set. now rewrite String.eqb_refl. }
  split; [exact Hget|].
  exists (foldl BuildProfiles.load_item BuildProfiles.DEFAULT_PROFILES profiles1).
  assert (Hall : forall other,
            BuildProfiles.get
              (foldl BuildProfiles.load_item BuildProfiles.DEFAULT_PROFILES profiles1) other
            = match BuildProfiles.get profiles1 other with
              | Some v => Some v
              | None => BuildProfiles.get BuildProfiles.DEFAULT_PROFILES other
              end).
  { intros other. unfold BuildProfiles.get. apply load_profiles_get.
    subst profiles1. cbn [BuildProfiles.set fst]. now apply dict_set_NoDup. }
  split; [|split; [|exact Hall]].
  - subst f1. cbn [BuildProfiles.set snd].
    unfold BuildProfiles.init, BuildProfiles.load, BuildProfiles.save, save_json, load_json.
    now rewrite Hw.
  - now rewrite Hall, Hget.
Qed.

Lemma profiles_set_reload_witness :
  let mine := JObj [("console", JBool true); ("admin", JBool true)] in
  let profiles1 :=
    (BuildProfiles.set BuildProfiles.DEFAULT_PROFILES (File Missing true) "Mine" mine).1 in
  let f1 :=
    (BuildProfiles.set BuildProfiles.DEFAULT_PROFILES (File Missing true) "Mine" mine).2 in
  BuildProfiles.get profiles1 "Mine" = Some mine
  /\ exists profiles2,
       BuildProfiles.init f1 = Return profiles2
       /\ BuildProfiles.get profiles2 "Mine" = Some mine
       /\ forall other,
            BuildProfiles.get profiles2 other
            = match BuildProfiles.get profiles1 other with
              | Some v => Some v
              | None => BuildProfiles.get BuildProfiles.DEFAULT_PROFILES other
              end.
Proof.
  intros mine.
  apply (profiles_set_reload BuildProfiles.DEFAULT_PROFILES (File Missing true) "Mine" mine
           eq_refl).
  exact (bool_decide_unpack
           (NoDup ["Default"; "Console App"; "Admin Tool"; "GUI Application"]) I).
Defined.

(** ** RecentFiles *)

Lemma strings_of_JStr (files : list string) :
  RecentFiles.strings_of (JStr <$> files) = Some files.
Proof. induction files as [|p files IH]; cbn; [reflexivity|now rewrite IH]. Qed.

Lemma slice_to_nil {A} (n : Z) : slice_to n (@nil A) = [].
Proof. unfold slice_to. destruct (0 <=? n); apply take_nil. Qed.

(** X17. Reloading the recent-files list after a save gives the saved
    paths that still exist, in their saved order, cut at the cap: paths
    whose file has gone are dropped, nothing is added, and with a cap
    [max_items >= 0] at most [max_items] paths are kept.  A missing or
    unreadable file gives the empty list. *)
Theorem recent_load_after_save (max_items : Z) (files : list string) (f : file) (h : host) :
  writable f = true ->
  let loaded := slice_to max_items (List.filter (exists_in h) files) in
  RecentFiles.load max_items (RecentFiles.save files f) h = Some loaded
  /\ (forall p, In p loaded -> In p files /\ exists_in h p = true)
  /\ (0 <= max_items -> Z.of_nat (length loaded) <= max_items)
  /\ (0 <= max_items -> loaded `sublist_of` files)
  /\ RecentFiles.load max_items (File Missing (writable f)) h = Some []
  /\ RecentFiles.load max_items (File Corrupt (writable f)) h = Some [].
Proof.
  intros Hw loaded.
  assert (Hsub : forall n, take n (List.filter (exists_in h) files) `sublist_of` files).
  { intros n. etransitivity; [apply sublist_take|].
    clear. induction files as [|p files IH]; cbn; [constructor|].
    destruct (exists_in h p); [now constructor|now apply sublist_cons]. }
  assert (Hin : forall p, In p loaded -> In p (List.filter (exists_in h) files)).
  { intros p Hp. subst loaded. unfold slice_to in Hp.
    destruct (0 <=? max_items); apply list_elem_of_In in Hp;
      apply list_elem_of_In; exact (subseteq_take _ _ _ Hp). }
  split; [|split; [|split; [|split; [|split]]]].
  - unfold RecentFiles.load, RecentFiles.save, save_json, load_json. rewrite Hw.
    cbn [content]. now rewrite strings_of_JStr.
  - intros p Hp. apply Hin in Hp. now apply filter_In in Hp.
  - intros Hm. subst loaded. rewrite slice_to_nonneg, length_take by lia. lia.
  - intros Hm. subst loaded. rewrite slice_to_nonneg by lia. apply Hsub.
  - unfold RecentFiles.load, load_json. cbn. now rewrite slice_to_nil.
  - unfold RecentFiles.load, load_json. cbn. now rewrite slice_to_nil.
Qed.

Lemma recent_load_after_save_witness :
  let h := Sample.host_with ["a.py"; "c.py"] in
  RecentFiles.load 10 (RecentFiles.save ["a.py"; "b.py"; "c.py"] (File Missing true)) h
  = Some ["a.py"; "c.py"].
Proof.
  intros h.
  destruct (recent_load_after_save 10 ["a.py"; "b.py"; "c.py"] (File Missing true) h eq_refl)
    as [E _].
  rewrite E. vm_compute. reflexivity.
Defined.

(** X18. [add] keeps the recent-files list well formed for every path,
    present or new: with a cap [max_items >= 0] a list without
    repetition stays without repetition, holds at most [max_items]
    paths and gains no path other than the one added; with a cap of at
    least 1 the added path is first; a new path pushes the others down
    and the last one out when the list is full.  The list written to
    the file is the list kept in memory. *)
Theorem recent_add_invariant (max_items : Z) (files : list string) (f : file) (p : string) :
  0 <= max_items -> NoDup files ->
  let files' := (RecentFiles.add max_items files f p).1 in
  NoDup files'
  /\ Z.of_nat (length files') <= max_items
  /\ (1 <= max_items -> exists rest, files' = p :: rest)
  /\ (~ In p files -> files' = take (Z.to_nat max_items) (p :: files))
  /\ (forall q, In q files' -> q = p \/ In q files)
  /\ (writable f = true ->
      content (RecentFiles.add max_items files f p).2 = Stored (JList (JStr <$> files'))).
Proof.
  intros Hm Hnd files'.
  set (rest := if list_contains p files then list_remove p files else files).
  assert (E : files' = take (Z.to_nat max_items) (p :: rest)).
  { subst files' rest. unfold RecentFiles.add. cbn [fst]. apply slice_to_nonneg, Hm. }
  assert (Hrest : NoDup (p :: rest) /\ forall q, In q rest -> In q files).
  { subst rest. destruct (list_contains p files) eqn:Hc.
    - apply list_contains_In in Hc. pose proof (list_remove_perm p files Hc) as Hperm.
      split; [now rewrite Hperm|].
      intros q Hq. apply list_elem_of_In. rewrite <- Hperm. right. now apply list_elem_of_In.
    - split; [|tauto]. apply NoDup_cons. split; [|exact Hnd].
      intros Hin%list_elem_of_In. apply list_contains_In in Hin. congruence. }
  destruct Hrest as [Hnd' Hsub].
  split; [|split; [|split; [|split; [|split]]]].
  - rewrite E. eapply sublist_NoDup; [exact Hnd'|apply sublist_take].
  - rewrite E, length_take. lia.
  - intros H1. rewrite E. apply take_cons_front. lia.
  - intros Hn. rewrite E. subst rest.
    destruct (list_contains p files) eqn:Hc; [|reflexivity].
    apply list_contains_In in Hc. contradiction.
  - intros q Hq. rewrite E in Hq. apply list_elem_of_In in Hq.
    apply (subseteq_take _ _ _) in Hq. apply elem_of_cons in Hq as [->|Hq]; [now left|].
    right. apply Hsub. now apply list_elem_of_In.
  - intros Hw. subst files'. unfold RecentFiles.add, RecentFiles.save, save_json.
    cbn [fst snd]. now rewrite Hw.
Qed.

Lemma recent_add_invariant_witness :
  let files' := (RecentFiles.add 3 ["a.py"; "b.py"; "c.py"] (File Missing true) "d.py").1 in
  NoDup files'
  /\ Z.of_nat (length files') <= 3
  /\ files' = ["d.py"; "a.py"; "b.py"].
Proof.
  intros files'.
  destruct (recent_add_invariant 3 ["a.py"; "b.py"; "c.py"] (File Missing true) "d.py")
    as (Hnd & Hlen & _ & Hnew & _).
  - lia.
  - exact (bool_decide_unpack (NoDup ["a.py"; "b.py"; "c.py"]) I).
  - split; [exact Hnd|]. split; [exact Hlen|]. apply Hnew.
    cbn. intros H. repeat (destruct H as [H|H]; [discriminate H|]). exact H.
Defined.

(** ** CompilationHistory *)

Lemma slice_to_negative_length {A} (n : Z) (l : list A) :
  n < 0 -> (length (slice_to n l) = length l - Z.to_nat (- n))%nat.
Proof.
  intros Hn. unfold slice_to. destruct (Z.leb_spec 0 n); [lia|].
  rewrite length_take. lia.
Qed.

(** X19. The cap is only a cap when it is not negative.  With
    [max_items < 0] the slice [[:max_items]] cuts entries off the end
    instead: after an [add] the history holds
    [len + 1 - |max_items|] entries (none when that is negative), so it
    never grows, and a history that starts empty stays empty whatever
    is added. *)
Theorem history_negative_cap (max_items : Z) (history : list CompilationHistory.entry)
    (f : file) (calls : list CompilationHistory.entry) :
  max_items < 0 ->
  (forall e, length (add_all max_items history f [e]).1
             = (length history + 1 - Z.to_nat (- max_items))%nat)
  /\ (length (add_all max_items history f calls).1 <= length history)%nat
  /\ (add_all max_items [] f calls).1 = [].
Proof.
  intros Hm.
  assert (Hone : forall hist g e,
            length (add_all max_items hist g [e]).1
            = (length hist + 1 - Z.to_nat (- max_items))%nat).
  { intros hist g e. unfold add_all. cbn [foldl fst snd]. rewrite history_add_fst.
    rewrite slice_to_negative_length by exact Hm. cbn [length]. lia. }
  assert (Hle : forall hist,
            (length (add_all max_items hist f calls).1 <= length hist)%nat).
  { intros hist. induction calls as [|e calls IH] using rev_ind; [cbn; lia|].
    rewrite add_all_snoc, slice_to_negative_length by exact Hm. cbn [length]. lia. }
  split; [intros e; apply Hone|]. split; [apply Hle|].
  specialize (Hle []). cbn [length] in Hle.
  destruct (add_all max_items [] f calls).1; [reflexivity|cbn in Hle; lia].
Qed.

Lemma history_negative_cap_witness :
  (add_all (-1) [] (File Missing true) [build 1; build 2; build 3]).1 = [].
Proof.
  destruct (history_negative_cap (-1) [] (File Missing true) [build 1; build 2; build 3])
    as (_ & _ & H); [lia|exact H].
Defined.


(** * Further properties of size formatting and estimation *)

Section Formatting.

(** A mantissa of exactly 53 bits is not rounded. *)
Lemma binary_round_aux_exact (sx : bool) (m : positive) (e : Z) :
  Z.log2 (Zpos m) = 52 -> -1074 <= e <= 971 ->
  binary_round_aux 53 1024 sx (Zpos m) e loc_Exact = S754_finite sx m e.
Proof.
  intros HL He. unfold binary_round_aux, shr_fexp.
  rewrite Zdigits2_log2, HL, fexp_normal by lia.
  replace (52 + 1 + e - 53 - e) with 0 by lia.
  cbn [shr shr_record_of_loc loc_of_shr_record round_nearest_even shr_m].
  rewrite Zdigits2_log2, HL, fexp_normal by lia.
  replace (52 + 1 + e - 53 - e) with 0 by lia.
  cbn [shr shr_record_of_loc shr_m].
  assert (Hle : (e <=? 1024 - 53) = true) by (apply Z.leb_le; lia).
  now rewrite Hle.
Qed.

(** For an int below [2^53] the quotient [n / 2**k] is a float that
    holds it exactly. *)
Lemma truediv_pow2_exact (n k : Z) :
  0 < n < 2 ^ 53 -> 0 <= k <= 1000 ->
  exists m e,
    Num.truediv_pow2 n k = Return (S754_finite false m e)
    /\ e <= - k
    /\ Zpos m = n * 2 ^ (- k - e).
Proof.
  intros [Hn Hlt] Hk. destruct n as [|p|p]; try lia.
  pose proof (log2_lt_bound _ _ Hn Hlt) as HL.
  pose proof (Z.log2_nonneg (Zpos p)) as HL0.
  unfold Num.truediv_pow2, Num.prec, Num.emax, binary_normalize, binary_round.
  rewrite digits2_log2, fexp_normal by lia.
  pose proof (shl_align_spec p (- k) (Z.log2 (Zpos p) + 1 + - k - 53)) as [Hm He].
  destruct (shl_align p (- k) (Z.log2 (Zpos p) + 1 + - k - 53)) as [mz ez].
  cbn [fst snd] in Hm, He.
  replace (Z.max (- k - (Z.log2 (Zpos p) + 1 + - k - 53)) 0)
    with (52 - Z.log2 (Zpos p)) in Hm, He by lia.
  assert (HLz : Z.log2 (Zpos mz) = 52).
  { rewrite Hm, Z.log2_mul_pow2 by lia. lia. }
  rewrite binary_round_aux_exact by (try exact HLz; lia).
  exists mz, ez. split; [reflexivity|]. split; [lia|].
  rewrite Hm. do 2 f_equal. lia.
Qed.

(** The digit [tenths] computes is the exact quotient rounded to the
    nearest tenth, ties to the even tenth. *)
Lemma tenths_exact (n k e : Z) (m : positive) :
  0 < n -> 0 < k -> e <= - k -> Zpos m = n * 2 ^ (- k - e) ->
  let t := Num.tenths m e in
  2 * Z.abs (10 * n - t * 2 ^ k) <= 2 ^ k
  /\ (2 * Z.abs (10 * n - t * 2 ^ k) = 2 ^ k -> Z.even t = true)
  /\ 0 <= t.
Proof.
  intros Hn Hk He Hm t. subst t. unfold Num.tenths.
  destruct (Z.leb_spec 0 e) as [|_]; [lia|].
  set (j := - k - e) in *.
  assert (Hj : 0 <= j) by lia.
  assert (Hd : 2 ^ (- e) = 2 ^ k * 2 ^ j).
  { rewrite <- Z.pow_add_r by lia. f_equal. lia. }
  assert (HP : 0 < 2 ^ k) by (apply Z.pow_pos_nonneg; lia).
  assert (HJ : 0 < 2 ^ j) by (apply Z.pow_pos_nonneg; lia).
  set (P := 2 ^ k) in *. set (J := 2 ^ j) in *.
  rewrite Hm, Hd.
  replace (10 * (n * J)) with ((10 * n) * J) by ring.
  rewrite Z.div_mul_cancel_r by lia.
  rewrite Z.mul_mod_distr_r by lia.
  pose proof (Z.div_mod (10 * n) P ltac:(lia)) as Hdm.
  pose proof (Z.mod_pos_bound (10 * n) P HP) as Hr.
  assert (Hq : 0 <= 10 * n / P) by (apply Z.div_pos; lia).
  set (q := 10 * n / P) in *. set (r := (10 * n) mod P) in *.
  assert (Hlt : (2 * (r * J) <? P * J) = (2 * r <? P)).
  { destruct (Z.ltb_spec (2 * r) P), (Z.ltb_spec (2 * (r * J)) (P * J)); try reflexivity; nia. }
  assert (Hgt : (P * J <? 2 * (r * J)) = (P <? 2 * r)).
  { destruct (Z.ltb_spec P (2 * r)), (Z.ltb_spec (P * J) (2 * (r * J))); try reflexivity; nia. }
  rewrite Hlt, Hgt.
  destruct (Z.ltb_spec (2 * r) P); [|destruct (Z.ltb_spec P (2 * r))].
  - replace (10 * n - q * P) with r by lia. rewrite Z.abs_eq by lia. lia.
  - replace (10 * n - (q + 1) * P) with (r - P) by lia. rewrite Z.abs_neq by lia. lia.
  - destruct (Z.even q) eqn:Hev.
    + replace (10 * n - q * P) with r by lia. rewrite Z.abs_eq by lia.
      split; [lia|]. split; [intros _; exact Hev|exact Hq].
    + replace (10 * n - (q + 1) * P) with (r - P) by lia. rewrite Z.abs_neq by lia.
      split; [lia|]. split; [|lia]. intros _.
      rewrite Z.even_add, Hev. reflexivity.
Qed.

Lemma append_assoc3 (a b c : string) : (a +:+ b) +:+ c = a +:+ b +:+ c.
Proof.
  induction a as [|x a IH]; [reflexivity|].
  change (String x ((a +:+ b) +:+ c) = String x (a +:+ b +:+ c)). now rewrite IH.
Qed.

(** X20. Below 1024 [format_size] prints the integer followed by
    " bytes".  From 1024 up to [2^53] it prints, for the unit it picks
    (KB, MB or GB by the thresholds [2^10], [2^20], [2^30]), the exact
    quotient rounded to one decimal, ties to the even digit: no
    precision is lost in the float division, and the tenths [t] printed
    are the integer nearest to [10 * size / 2^k]. *)
Theorem format_size_exact (size : Z) :
  (size < 1024 -> format_size size = Return (Num.str size +:+ " bytes"))
  /\ (1024 <= size < 2 ^ 53 ->
      exists t,
        format_size size
        = Return (Num.str (t / 10) +:+ "." +:+ Num.str (t mod 10) +:+ (unit_of size).2)
        /\ 2 * Z.abs (10 * size - t * 2 ^ (unit_of size).1) <= 2 ^ (unit_of size).1
        /\ (2 * Z.abs (10 * size - t * 2 ^ (unit_of size).1) = 2 ^ (unit_of size).1 ->
            Z.even t = true)).
Proof.
  split.
  - intros H. unfold format_size.
    destruct (Z.leb_spec 1073741824 size); [lia|].
    destruct (Z.leb_spec 1048576 size); [lia|].
    destruct (Z.leb_spec 1024 size); [lia|reflexivity].
  - intros [Hlo Hhi].
    assert (Hk : exists k u, unit_of size = (k, u) /\ 0 < k <= 1000
                 /\ format_size size
                    = Num.andthen (Num.truediv_pow2 size k)
                        (fun x => Return (Num.format_1f x +:+ u))).
    { unfold unit_of, format_size.
      destruct (Z.leb_spec 1073741824 size); [eexists _, _; repeat split; lia|].
      destruct (Z.leb_spec 1048576 size); [eexists _, _; repeat split; lia|].
      destruct (Z.leb_spec 1024 size); [eexists _, _; repeat split; lia|lia]. }
    destruct Hk as (k & u & Hu & Hk & Hf). rewrite Hu. cbn [fst snd].
    destruct (truediv_pow2_exact size k) as (m & e & Hdiv & He & Hm); [lia|lia|].
    destruct (tenths_exact size k e m) as (Hnear & Htie & _); try lia.
    exists (Num.tenths m e). split; [|split; assumption].
    rewrite Hf, Hdiv. cbn [Num.andthen Num.format_1f].
    change ("" +:+ ?x) with x. f_equal.
    now rewrite !append_assoc3.
Qed.

(** X21. The unit is picked before rounding, so the number printed can
    reach 1024.0: every size from 1,048,525 to 1,048,575 bytes, one
    byte short of a megabyte at most, is shown as "1024.0 KB", not as
    "1.0 MB". *)
Theorem format_size_just_below_unit (size : Z) :
  1048525 <= size < 1048576 -> format_size size = Return "1024.0 KB".
Proof.
  intros H. destruct (format_size_exact size) as [_ Hex].
  destruct Hex as (t & E & Hnear & _); [lia|].
  assert (Hu : unit_of size = (10, " KB")).
  { unfold unit_of. destruct (Z.leb_spec 1073741824 size); [lia|].
    destruct (Z.leb_spec 1048576 size); [lia|reflexivity]. }
  rewrite Hu in E, Hnear. cbn [fst snd] in E, Hnear.
  change (2 ^ 10) with 1024 in Hnear.
  assert (Ht : t = 10240) by lia.
  rewrite E, Ht. vm_compute. reflexivity.
Qed.

Lemma format_size_just_below_unit_witness : format_size 1048575 = Return "1024.0 KB".
Proof. apply format_size_just_below_unit. lia. Defined.

Lemma format_size_exact_witness :
  format_size 1000 = Return "1000 bytes"
  /\ exists t,
       format_size 1310720
       = Return (Num.str (t / 10) +:+ "." +:+ Num.str (t mod 10) +:+ (unit_of 1310720).2)
       /\ 2 * Z.abs (10 * 1310720 - t * 2 ^ (unit_of 1310720).1) <= 2 ^ (unit_of 1310720).1
       /\ (2 * Z.abs (10 * 1310720 - t * 2 ^ (unit_of 1310720).1) = 2 ^ (unit_of 1310720).1 ->
           Z.even t = true).
Proof.
  destruct (format_size_exact 1000) as [H1 _].
  destruct (format_size_exact 1310720) as [_ H2].
  split; [apply H1; lia|apply H2; lia].
Defined.






End Formatting.

Lemma compile_success_means_exit_zero_witness :
  exists cmd cwd p,
    spawned (snd (Compiler.compile (windows "built") "a.rb" "a.exe" "rb" None false false
                    true None Sample.empty_host))
    = spawned Sample.empty_host ++ [(cmd, cwd)]
    /\ os_run (windows "built") cmd cwd = Ran p
    /\ returncode p = 0
    /\ "built" = stdout p +:+ stderr p.
Proof.
  apply (compile_success_means_exit_zero (windows "built") "a.rb" "a.exe" None false false
           true None "rb" Sample.empty_host "built").
  reflexivity.
Defined.

Lemma compile_working_directory_witness :
  let src := "C:" +:+ backslash +:+ "w" +:+ backslash +:+ "main.go" in
  Some ("C:" +:+ backslash +:+ "w")
  = if String.eqb "go" "go" then Some (os_dirname (windows_with_go "ok") src) else None.
Proof.
  intros src.
  apply (compile_working_directory (windows_with_go "ok") src "main.exe" None false false
           true None "go" Sample.empty_host
           ["C:" +:+ backslash +:+ "Go" +:+ backslash +:+ "bin" +:+ backslash +:+ "go.exe";
            "build"; "-o"; "main.exe"; src]).
  vm_compute. reflexivity.
Defined.

Lemma check_go_agrees_with_compile_go_witness :
  exists b,
    DependencyChecker.check_compiler (windows_with_go "ok") "go" Sample.empty_host
    = (Return b, Sample.empty_host)
    /\ (b = true <->
        exists cmd cwd,
          Compiler.compile (windows_with_go "ok") "main.go" "main.exe" "go" None false false
            true None Sample.empty_host
          = run_command (windows_with_go "ok") cmd cwd Sample.empty_host)
    /\ (b = false <->
        Compiler.compile (windows_with_go "ok") "main.go" "main.exe" "go" None false false
          true None Sample.empty_host
        = (Return (false, "Go compiler not found"), Sample.empty_host)).
Proof.
  exact (check_go_agrees_with_compile_go (windows_with_go "ok") "main.go" "main.exe" None
           false false true None Sample.empty_host).
Defined.


Lemma profiles_init_builtins_witness :
  exists profiles extra,
    BuildProfiles.init
      (File (Stored (JObj [("Mine", JObj []); ("Default", JObj [("console", JBool true)])]))
         true)
    = Return profiles
    /\ BuildProfiles.names profiles
       = ["Default"; "Console App"; "Admin Tool"; "GUI Application"] ++ extra
    /\ NoDup (BuildProfiles.names profiles)
    /\ forall name, In name ["Default"; "Console App"; "Admin Tool"; "GUI Application"] ->
                    is_Some (BuildProfiles.get profiles name).
Proof.
  exact (proj2 (proj2 (profiles_init_builtins
                         [("Mine", JObj []); ("Default", JObj [("console", JBool true)])]
                         true))).
Defined.
